(** * Log and event monitoring helpers of wazuh_testing

    A shallow embedding of

      - deps/wazuh_testing/wazuh_testing/modules/eps/event_monitor.py
      - deps/wazuh_testing/wazuh_testing/remote.py

    together with the monitoring core they call into
    (wazuh_testing.tools.monitoring), which is written down from the
    specification of the repository.

    Conventions.  A Python [str] is a [string]; its characters are the code
    points below 256.  A Python [bytes] is a [list byte].  Code that can
    raise returns an [outcome].  The regular-expression library [re] is an
    interface ([ReModule]); [MiniRe] implements a fragment of it. *)

From Stdlib Require Import Bool Arith Lia List Ascii String.
From Stdlib Require Import Strings.Byte.
From Stdlib Require Import ZArith DecimalString.
Import ListNotations.
Open Scope string_scope.

Set Implicit Arguments.

(** ** Python string primitives *)

Module PyStr.

Definition code (c : ascii) : nat := nat_of_ascii c.

(** [str.isspace] on one character: the code points U+0009..U+000D,
    U+001C..U+0020, U+0085 and U+00A0 are the white space below 256. *)
Definition isspace (c : ascii) : bool :=
  let n := code c in
  (((9 <=? n) && (n <=? 13)) || ((28 <=? n) && (n <=? 32))
   || (n =? 133) || (n =? 160))%nat.

Definition cons_word (w : string) (ws : list string) : list string :=
  match w with
  | EmptyString => ws
  | _ => w :: ws
  end.

(** [words s] scans [s] and gives the word that starts at its first
    character (empty when [s] starts with white space) and the words after
    that one. *)
Fixpoint words (s : string) : string * list string :=
  match s with
  | EmptyString => (EmptyString, [])
  | String c s' =>
      let (w, ws) := words s' in
      if isspace c then (EmptyString, cons_word w ws)
      else (String c w, ws)
  end.

(** [s.split()]: the maximal runs of characters that are not white
    space. *)
Definition split (s : string) : list string :=
  let (w, ws) := words s in cons_word w ws.

(** [sep.join(l)] *)
Fixpoint join (sep : string) (l : list string) : string :=
  match l with
  | [] => EmptyString
  | [x] => x
  | x :: r => x ++ sep ++ join sep r
  end.

(** [s.lstrip()], [s.rstrip()], [s.strip()] *)
Fixpoint lstrip (s : string) : string :=
  match s with
  | EmptyString => EmptyString
  | String c s' => if isspace c then lstrip s' else s
  end.

Fixpoint rstrip (s : string) : string :=
  match s with
  | EmptyString => EmptyString
  | String c s' =>
      match rstrip s' with
      | EmptyString => if isspace c then EmptyString else String c EmptyString
      | r => String c r
      end
  end.

Definition strip (s : string) : string := lstrip (rstrip s).

(** [s.upper()]: the letters a..z go to A..Z.  The other characters below
    128 stay; no character from 128 on is sent to an ASCII letter by
    Python, and the model leaves those in place. *)
Definition upper_char (c : ascii) : ascii :=
  let n := code c in
  if ((97 <=? n) && (n <=? 122))%nat then ascii_of_nat (n - 32) else c.

Fixpoint upper (s : string) : string :=
  match s with
  | EmptyString => EmptyString
  | String c s' => String (upper_char c) (upper s')
  end.

(** [s.encode()] for text below 128, and [len]. *)
Definition encode (s : string) : list byte := list_byte_of_string s.

(** ['{}'.format(v)] for an optional [str]: [None] prints as the text
    None. *)
Definition format (v : option string) : string :=
  match v with
  | None => "None"
  | Some s => s
  end.

(** [s in t] *)
Fixpoint is_prefix (p s : string) : bool :=
  match p, s with
  | EmptyString, _ => true
  | String a p', String b s' => Ascii.eqb a b && is_prefix p' s'
  | String _ _, EmptyString => false
  end.

Fixpoint contains (sub s : string) : bool :=
  is_prefix sub s ||
  match s with
  | EmptyString => false
  | String _ s' => contains sub s'
  end.

End PyStr.

(** ** Exceptions and results *)

Inductive exn : Type :=
| ReError                          (* re.error *)
| TimeoutError (msg : string)      (* the monitor's TimedOut failure *)
| ConnectionRefusedError.

Inductive outcome (A : Type) : Type :=
| Return (a : A)
| Raise (e : exn).

Arguments Return {A} a.
Arguments Raise {A} e.

Definition bind {A B} (m : outcome A) (k : A -> outcome B) : outcome B :=
  match m with
  | Return a => k a
  | Raise e => Raise e
  end.

Notation "x <- m ;; k" := (bind m (fun x => k))
  (at level 61, m at next level, right associativity).

(** What a callback hands back for one line: [None], a [bool], or a match
    object of the regular-expression library. *)
Inductive value (M : Type) : Type :=
| VNone
| VBool (b : bool)
| VMatch (m : M).

Arguments VNone {M}.
Arguments VBool {M} b.
Arguments VMatch {M} m.

(** Python truth value. *)
Definition truthy {M} (v : value M) : bool :=
  match v with
  | VNone => false
  | VBool b => b
  | VMatch _ => true
  end.

(** ** The interface of [re] that the helpers use *)

Class ReModule : Type := {
  Pattern : Type;
  Match : Type;
  (** [re.compile(source)]; [None] when it raises [re.error] *)
  re_compile : string -> option Pattern;
  (** [regex.match(line)]: a match that starts at the first character of
      [line], or [None] *)
  re_match : Pattern -> string -> option Match
}.

Definition is_not_None {A} (o : option A) : bool :=
  match o with
  | Some _ => true
  | None => false
  end.

(** ** A reference engine for a fragment of [re]

    Ordinary characters, [.], the classes [\s] and [\d], escaped
    punctuation, the postfix operators [*], [+], [?], groups and [|].
    [compile] answers [None] for every other pattern.  Matching is by
    derivatives, so it is total. *)

Module MiniRe.

Inductive re : Type :=
| Void
| Eps
| Chr (p : ascii -> bool)
| Cat (a b : re)
| Alt (a b : re)
| Star (a : re).

Fixpoint nullable (r : re) : bool :=
  match r with
  | Void => false
  | Eps => true
  | Chr _ => false
  | Cat a b => nullable a && nullable b
  | Alt a b => nullable a || nullable b
  | Star _ => true
  end.

Fixpoint deriv (c : ascii) (r : re) : re :=
  match r with
  | Void => Void
  | Eps => Void
  | Chr p => if p c then Eps else Void
  | Cat a b =>
      if nullable a then Alt (Cat (deriv c a) b) (deriv c b)
      else Cat (deriv c a) b
  | Alt a b => Alt (deriv c a) (deriv c b)
  | Star a => Cat (deriv c a) (Star a)
  end.

(** Some prefix of [s] is in the language of [r]. *)
Fixpoint accepts_prefix (r : re) (s : string) : bool :=
  nullable r ||
  match s with
  | EmptyString => false
  | String c s' => accepts_prefix (deriv c r) s'
  end.

Definition is_meta (c : ascii) : bool :=
  PyStr.contains (String c EmptyString) ".^$*+?{}[]\|()".

Definition is_alnum (c : ascii) : bool :=
  let n := PyStr.code c in
  (((48 <=? n) && (n <=? 57)) || ((65 <=? n) && (n <=? 90))
   || ((97 <=? n) && (n <=? 122)) || (128 <=? n))%nat.

Definition is_digit (c : ascii) : bool :=
  let n := PyStr.code c in ((48 <=? n) && (n <=? 57))%nat.

Definition escape (c : ascii) : option re :=
  if Ascii.eqb c "s" then Some (Chr PyStr.isspace)
  else if Ascii.eqb c "d" then Some (Chr is_digit)
  else if is_alnum c then None
  else Some (Chr (Ascii.eqb c)).

Definition quantified (a : re) (s : string) : re * string :=
  match s with
  | String "*" s' => (Star a, s')
  | String "+" s' => (Cat a (Star a), s')
  | String "?" s' => (Alt Eps a, s')
  | _ => (a, s)
  end.

Fixpoint parse_alt (fuel : nat) (s : string) : option (re * string) :=
  match fuel with
  | O => None
  | S n =>
      match parse_seq n s with
      | Some (r, String "|" s') =>
          match parse_alt n s' with
          | Some (r', s'') => Some (Alt r r', s'')
          | None => None
          end
      | other => other
      end
  end
with parse_seq (fuel : nat) (s : string) : option (re * string) :=
  match fuel with
  | O => None
  | S n =>
      match s with
      | EmptyString => Some (Eps, s)
      | String "|" _ => Some (Eps, s)
      | String ")" _ => Some (Eps, s)
      | _ =>
          match parse_atom n s with
          | Some (a, s1) =>
              let (q, s2) := quantified a s1 in
              match parse_seq n s2 with
              | Some (r, s3) => Some (Cat q r, s3)
              | None => None
              end
          | None => None
          end
      end
  end
with parse_atom (fuel : nat) (s : string) : option (re * string) :=
  match fuel with
  | O => None
  | S n =>
      match s with
      | EmptyString => None
      | String "(" s' =>
          match parse_alt n s' with
          | Some (r, String ")" s'') => Some (r, s'')
          | _ => None
          end
      | String "." s' => Some (Chr (fun c => negb (Ascii.eqb c "010")), s')
      | String "\" EmptyString => None
      | String "\" (String c s') =>
          match escape c with
          | Some r => Some (r, s')
          | None => None
          end
      | String c s' => if is_meta c then None else Some (Chr (Ascii.eqb c), s')
      end
  end.

Definition compile (src : string) : option re :=
  match parse_alt (3 * String.length src + 3) src with
  | Some (r, EmptyString) => Some r
  | _ => None
  end.

(** The match object keeps the subject line ([m.string]). *)
Definition rmatch (r : re) (line : string) : option string :=
  if accepts_prefix r line then Some line else None.

End MiniRe.

Definition mini_re : ReModule := {|
  Pattern := MiniRe.re;
  Match := string;
  re_compile := MiniRe.compile;
  re_match := MiniRe.rmatch
|}.

Definition mini_search (src line : string) : option bool :=
  match MiniRe.compile src with
  | Some r => Some (is_not_None (MiniRe.rmatch r line))
  | None => None
  end.

(** ** wazuh_testing.tools.monitoring: the monitor *)

Module Monitoring.

Section Monitor.

(** the match objects the callbacks may carry *)
Variable M : Type.

Definition Callback : Type := string -> value M.

(** MonitorRequest of the data model: the arguments of one [start]. *)
Record MonitorRequest : Type := {
  timeout : nat;
  callback : Callback;
  update_position : bool;
  accum_results : nat;
  error_message : string
}.

Inductive handle : Type :=
| FilePath (path : string)
| QueueHandle (name : string).

(** LineSource state of the data model: what is read and the last read
    offset, counted in lines. *)
Record Monitor : Type := {
  source : handle;
  last_read_offset : nat
}.

Definition FileMonitor (path : string) : Monitor :=
  {| source := FilePath path; last_read_offset := 0 |}.

Definition QueueMonitor (queue : string) : Monitor :=
  {| source := QueueHandle queue; last_read_offset := 0 |}.

(** What a Success carries: the accumulated matches, or the one match
    itself when one was asked for. *)
Inductive MatchResult : Type :=
| Single (v : value M)
| Many (vs : list (value M)).

Definition success (n : nat) (acc : list (value M)) : MatchResult :=
  match n, acc with
  | 1, [v] => Single v
  | _, _ => Many acc
  end.

(** Modelled from the spec: step 2b and 2c of the monitor's [start]
    (wazuh_testing.tools.monitoring is not among the sources).  The
    callback is applied to each new line in order; a match is appended
    to the accumulator; the scan stops at the line that brings the
    counter to [n].  [pos] counts the lines consumed.  The answer is the
    accumulator, the position, and whether the count was reached. *)
Fixpoint scan (cb : Callback) (n : nat) (acc : list (value M)) (pos : nat)
         (lines : list string) : list (value M) * nat * bool :=
  match lines with
  | [] => (acc, pos, false)
  | l :: rest =>
      let v := cb l in
      if truthy v then
        let acc' := (acc ++ [v])%list in
        if (List.length acc' =? n)%nat then (acc', S pos, true)
        else scan cb n acc' (S pos) rest
      else scan cb n acc (S pos) rest
  end.

(** Modelled from the spec: step 2 of the monitor's [start].  The wall
    clock is kept outside: [polls] lists, for each poll iteration that
    begins before the timeout has elapsed, the lines that reached the
    source since the read before it.  [src] is the source as last read.
    [None] stands for the timeout. *)
Fixpoint poll_loop (cb : Callback) (n : nat) (acc : list (value M))
         (src : list string) (pos : nat) (polls : list (list string))
  : option (list (value M) * nat) :=
  match polls with
  | [] => None
  | arrived :: rest =>
      let src' := (src ++ arrived)%list in
      match scan cb n acc pos (skipn pos src') with
      | (acc', pos', true) => Some (acc', pos')
      | (acc', pos', false) => poll_loop cb n acc' src' pos' rest
      end
  end.

(** Modelled from the spec: the monitor's [start] (section 4.2).
    [existing] is the content of the source when the call begins.  The
    starting offset is 0 without [update_position] and the remembered
    offset with it; a Success remembers the new offset when
    [update_position] is set; a timeout raises the TimedOut failure with
    the request's message. *)
Definition start (req : MonitorRequest) (mon : Monitor)
           (existing : list string) (polls : list (list string))
  : outcome MatchResult * Monitor :=
  let offset := if update_position req then last_read_offset mon else 0 in
  match poll_loop (callback req) (accum_results req) [] existing offset polls with
  | Some (acc, pos) =>
      (Return (success (accum_results req) acc),
       if update_position req
       then {| source := source mon; last_read_offset := pos |}
       else mon)
  | None => (Raise (TimeoutError (error_message req)), mon)
  end.

(** Modelled from the spec: a call of [start] that leaves [accum_results]
    out waits for one match (the data model asks for at least one). *)
Definition default_accum_results : nat := 1.

(** The matches among some lines, in order. *)
Definition matches_of (cb : Callback) (lines : list string) : list (value M) :=
  filter truthy (map cb lines).

(** The lines one call gets to read: everything from the starting offset
    on, once at least one poll iteration runs. *)
Definition observed (req : MonitorRequest) (mon : Monitor)
           (existing : list string) (polls : list (list string)) : list string :=
  match polls with
  | [] => []
  | _ =>
      skipn (if update_position req then last_read_offset mon else 0)
            (existing ++ List.concat polls)%list
  end.

End Monitor.

(** Modelled from the spec: replace every run of white space by one [\s+]
    token (section 4.1, white-space normalisation). *)
Fixpoint collapse_whitespace (s : string) : string :=
  match s with
  | EmptyString => EmptyString
  | String c s' =>
      if PyStr.isspace c then
        match s' with
        | EmptyString => "\s+"
        | String c' _ =>
            if PyStr.isspace c' then collapse_whitespace s'
            else "\s+" ++ collapse_whitespace s'
        end
      else String c (collapse_whitespace s')
  end.

(** Modelled from the spec: the callback construction of the monitoring
    module, [make_callback(pattern, prefix)] (section 4.1).  The compiled
    expression is the prefix followed by the normalised pattern; an empty
    or [None] prefix adds nothing; the matcher gives the match object or
    [None]. *)
Definition make_callback {RE : ReModule} (pattern : string) (prefix : option string)
  : outcome (Callback Match) :=
  let normalized := collapse_whitespace pattern in
  let full :=
    match prefix with
    | None => normalized
    | Some p => p ++ normalized
    end in
  match re_compile full with
  | None => Raise ReError
  | Some regex =>
      Return (fun line =>
                match re_match regex line with
                | Some m => VMatch m
                | None => VNone
                end)
  end.

End Monitoring.

Import Monitoring.

(** ** modules/eps/event_monitor.py *)

Module EventMonitor.

Section EventMonitor.

Context {RE : ReModule}.

(** Constants of [wazuh_testing.modules.eps] and [wazuh_testing.tools]
    and a helper of the monitoring module that the file imports. *)
Variables (ANALYSISD_PREFIX MAILD_PREFIX LOG_FILE_PATH : string).
Variables (T_10 T_20 T_60 : nat).
Variable generate_monitoring_callback_groups : string -> Callback Match.

(** Lines 23 and 24: the source text handed to [re.compile]. *)
Definition analysisd_regex (pattern : string) (prefix : option string) : string :=
  let pattern := PyStr.join "\s+" (PyStr.split pattern) in
  PyStr.format prefix ++ pattern.

(** [make_analysisd_callback(pattern, prefix)].  The default of [prefix]
    is [ANALYSISD_PREFIX]; callers of the model pass it. *)
Definition make_analysisd_callback (pattern : string) (prefix : option string)
  : outcome (Callback Match) :=
  match re_compile (analysisd_regex pattern prefix) with
  | None => Raise ReError
  | Some regex => Return (fun line => VBool (is_not_None (re_match regex line)))
  end.

Definition resolve_monitor (file_monitor : option Monitor) (file_to_monitor : string)
  : Monitor :=
  match file_monitor with
  | None => FileMonitor file_to_monitor
  | Some m => m
  end.

Definition resolve_message (error_message : option string)
           (file_to_monitor callback : string) : string :=
  match error_message with
  | None => "Could not find this event in " ++ file_to_monitor ++ ": " ++ callback
  | Some m => m
  end.

(** Lines 43 to 48 of [check_analysisd_event], up to the call: the
    monitor that is started and the arguments it is started with. *)
Definition check_analysisd_event_call
           (file_monitor : option Monitor) (callback : string)
           (error_message : option string) (update_position : bool)
           (timeout : nat) (prefix : option string) (accum_results : nat)
           (file_to_monitor : string)
  : outcome (Monitor * MonitorRequest Match) :=
  let file_monitor := resolve_monitor file_monitor file_to_monitor in
  let error_message := resolve_message error_message file_to_monitor callback in
  cb <- make_analysisd_callback callback prefix ;;
  Return (file_monitor,
          {| timeout := timeout; update_position := update_position;
             accum_results := accum_results; callback := cb;
             error_message := error_message |}).

(** [check_analysisd_event]: returns [None], or raises what the callback
    construction or the monitor raises.  The monitor comes back with
    the result. *)
Definition check_analysisd_event
           (file_monitor : option Monitor) (callback : string)
           (error_message : option string) (update_position : bool)
           (timeout : nat) (prefix : option string) (accum_results : nat)
           (file_to_monitor : string)
           (existing : list string) (polls : list (list string))
  : outcome unit * Monitor :=
  match check_analysisd_event_call file_monitor callback error_message
          update_position timeout prefix accum_results file_to_monitor with
  | Raise e => (Raise e, resolve_monitor file_monitor file_to_monitor)
  | Return (mon, req) =>
      let (r, mon') := start req mon existing polls in
      (_ <- r ;; Return tt, mon')
  end.

Definition check_eps_disabled (existing : list string) (polls : list (list string))
  : outcome unit * Monitor :=
  check_analysisd_event None ".*INFO: EPS limit disabled.*" None true T_10
    (Some ANALYSISD_PREFIX) 1 LOG_FILE_PATH existing polls.

Definition check_configuration_error (existing : list string)
           (polls : list (list string)) : outcome unit * Monitor :=
  check_analysisd_event None ".* \(\d+\): Configuration error at.*"
    (Some "Could not find the event 'Configuration error at 'etc/ossec.conf' in ossec.log")
    true T_10 (Some MAILD_PREFIX) 1 LOG_FILE_PATH existing polls.

(** [get_messages_info]: what the Success of the monitor carries. *)
Definition get_messages_info (file_monitor : Monitor) (message : string)
           (accum_results : nat)
           (existing : list string) (polls : list (list string))
  : outcome (MatchResult Match) * Monitor :=
  let error_message := "Could not find this event in " ++ message in
  start {| timeout := T_20; update_position := true;
           accum_results := accum_results;
           callback := generate_monitoring_callback_groups message;
           error_message := error_message |}
        file_monitor existing polls.

End EventMonitor.

End EventMonitor.

Import EventMonitor.

(** ** remote.py *)

Module Remote.

Definition UDP : string := "UDP".
Definition TCP : string := "TCP".
Definition REMOTED_GLOBAL_TIMEOUT : nat := 10.
Definition EXAMPLE_MESSAGE_PATTERN : string :=
  "Accepted publickey for root from 192.168.0.5 port 48044".

(** [os.path.join(a, b)] on a POSIX system *)
Definition os_path_join (a b : string) : string :=
  if PyStr.is_prefix "/" b then b
  else match a with
       | EmptyString => b
       | _ =>
           if String.eqb (substring (String.length a - 1) 1 a) "/" then a ++ b
           else a ++ "/" ++ b
       end.

(** *** Sockets *)

Inductive sock_kind : Type := SOCK_DGRAM | SOCK_STREAM.

Inductive sock_call : Type :=
| Socket (kind : sock_kind)
| Connect (address : string) (port : nat)
| Send (data : list byte)
| Recv (bufsize : nat)
| Close.

(** The manager at the other end.  [refuses]: nothing listens on the port;
    a stream [connect] then raises ConnectionRefusedError, while a datagram
    [connect] and [send] go through and the refusal comes back at [recv].
    [reply]: what [recv(bufsize)] hands back after [data] was sent. *)
Record Peer : Type := {
  refuses : bool;
  reply : list byte -> nat -> list byte
}.

Definition byte_of_nat (n : nat) : byte := byte_of_ascii (ascii_of_nat n).

(** [n.to_bytes(length, 'little')] for an [n] below [256 ^ length] *)
Fixpoint to_bytes_little (length : nat) (n : nat) : list byte :=
  match length with
  | O => []
  | S k => byte_of_nat (n mod 256) :: to_bytes_little k (n / 256)
  end.

(** [b[-k:]] for a positive [k] *)
Definition last_bytes (k : nat) (b : list byte) : list byte :=
  skipn (List.length b - k) b.

(** [send_ping_pong_messages]: the value returned or the exception, and
    the calls made on the socket, in order.  With nothing listening a
    stream socket fails at [connect]; a datagram socket sends the ping and
    fails at [recv]; neither reaches [close]. *)
Definition send_ping_pong_messages (protocol manager_address : string) (port : nat)
           (peer : Peer) : outcome (list byte) * list sock_call :=
  let protocol := PyStr.upper protocol in
  let (sock, ping_msg) :=
    if String.eqb protocol UDP then (SOCK_DGRAM, PyStr.encode "#ping")
    else
      let msg := "#ping" in
      let msg_size := List.length (PyStr.encode msg) in
      (SOCK_STREAM, (to_bytes_little 4 msg_size ++ PyStr.encode msg)%list) in
  match sock, refuses peer with
  | SOCK_STREAM, true =>
      (Raise ConnectionRefusedError, [Socket sock; Connect manager_address port])
  | SOCK_DGRAM, true =>
      (Raise ConnectionRefusedError,
       [Socket sock; Connect manager_address port; Send ping_msg;
        Recv (List.length ping_msg)])
  | _, false =>
      let response := reply peer ping_msg (List.length ping_msg) in
      (Return (if String.eqb protocol UDP then response else last_bytes 5 response),
       [Socket sock; Connect manager_address port; Send ping_msg;
        Recv (List.length ping_msg); Close])
  end.

(** *** The daemon, the interceptor and the calls made on them *)

Inductive call : Type :=
| ControlService (action daemon : string)
| BindUnixSocket (path protocol : string)
| MitmStart (address family protocol : string)
| MitmShutdown
| MonitorStart (timeout : nat) (error_message : string) (update_position : bool).

Record World : Type := {
  analysisd_running : bool;
  mitm_listening : bool;
  mitm_loop_running : bool;
  calls : list call
}.

Definition W (A : Type) : Type := World -> outcome A * World.

Definition wret {A} (a : A) : W A := fun w => (Return a, w).

Definition wbind {A B} (m : W A) (k : A -> W B) : W B :=
  fun w =>
    match m w with
    | (Return a, w') => k a w'
    | (Raise e, w') => (Raise e, w')
    end.

Definition wlift {A} (r : outcome A) : W A := fun w => (r, w).

Notation "x <~ m ;; k" := (wbind m (fun x => k))
  (at level 61, m at next level, right associativity).
Notation "m ;;; k" := (wbind m (fun _ => k))
  (at level 61, right associativity).

(** [try: body finally: final] *)
Definition try_finally {A} (body : W A) (final : W unit) : W A :=
  fun w =>
    let (r, w1) := body w in
    match final w1 with
    | (Return _, w2) => (r, w2)
    | (Raise e, w2) => (Raise e, w2)
    end.

Definition record (c : call) (w : World) : World :=
  {| analysisd_running := analysisd_running w;
     mitm_listening := mitm_listening w;
     mitm_loop_running := mitm_loop_running w;
     calls := (calls w ++ [c])%list |}.

(** Modelled from the spec: [control_service(action, daemon)] of
    wazuh_testing.tools.services, the daemon lifecycle control; only
    wazuh-analysisd is followed. *)
Definition control_service (action daemon : string) : W unit :=
  fun w =>
    let w' := record (ControlService action daemon) w in
    (Return tt,
     if String.eqb daemon "wazuh-analysisd" then
       {| analysisd_running :=
            if String.eqb action "start" then true
            else if String.eqb action "stop" then false
            else analysisd_running w';
          mitm_listening := mitm_listening w';
          mitm_loop_running := mitm_loop_running w';
          calls := calls w' |}
     else w').

(** Modelled from the spec: [file.bind_unix_socket(path, protocol)] of
    wazuh_testing.tools.file, which creates the socket when it does not
    exist. *)
Definition bind_unix_socket (path protocol : string) : W unit :=
  fun w => (Return tt, record (BindUnixSocket path protocol) w).

(** Modelled from the spec: [ManInTheMiddle.start()] (section 4.3): the
    interceptor listens on its address and runs its receive loop. *)
Definition mitm_start (address family protocol : string) : W unit :=
  fun w =>
    let w' := record (MitmStart address family protocol) w in
    (Return tt,
     {| analysisd_running := analysisd_running w';
        mitm_listening := true;
        mitm_loop_running := true;
        calls := calls w' |}).

(** Modelled from the spec: [ManInTheMiddle.shutdown()] (section 4.3): it
    closes the listening socket, which frees the address, and stops the
    loop. *)
Definition mitm_shutdown : W unit :=
  fun w =>
    let w' := record MitmShutdown w in
    (Return tt,
     {| analysisd_running := analysisd_running w';
        mitm_listening := false;
        mitm_loop_running := false;
        calls := calls w' |}).

Section Remote.

Context {RE : ReModule}.

(** Constants of [wazuh_testing.tools] that the file imports. *)
Variables (REMOTED_DETECTOR_PREFIX QUEUE_SOCKETS_PATH : string).

Definition QUEUE_SOCKET_PATH : string := os_path_join QUEUE_SOCKETS_PATH "queue".

Definition callback_detect_syslog_event (message : string)
  : outcome (Callback Match) :=
  let expr := ".*->\d+\.\d+\.\d+\.\d+\s" ++ message in
  make_callback expr None.

(** [detect_archives_log_event]; the defaults are [update_position=True]
    and [timeout=5]. *)
Definition detect_archives_log_event (archives_monitor : Monitor)
           (callback : Callback Match) (error_message : string)
           (update_position : bool) (timeout : nat)
           (existing : list string) (polls : list (list string))
  : outcome unit * Monitor :=
  let (r, mon') :=
    start {| timeout := timeout; update_position := update_position;
             callback := callback; error_message := error_message;
             accum_results := default_accum_results |}
          archives_monitor existing polls in
  (_ <- r ;; Return tt, mon').

(** [check_remoted_log_event]; the defaults are [error_message=''],
    [update_position=False] and [timeout=REMOTED_GLOBAL_TIMEOUT]. *)
Definition check_remoted_log_event (wazuh_log_monitor : Monitor)
           (callback_pattern error_message : string)
           (update_position : bool) (timeout : nat)
           (existing : list string) (polls : list (list string))
  : outcome unit * Monitor :=
  match make_callback callback_pattern (Some REMOTED_DETECTOR_PREFIX) with
  | Raise e => (Raise e, wazuh_log_monitor)
  | Return cb =>
      let (r, mon') :=
        start {| timeout := timeout; update_position := update_position;
                 callback := cb; error_message := error_message;
                 accum_results := default_accum_results |}
              wazuh_log_monitor existing polls in
      (_ <- r ;; Return tt, mon')
  end.

(** [socket_monitor.start(...)] on the queue of the interceptor, which is
    empty when the monitor is made; [polls] are the payloads the
    interceptor queues, each passed through its function first. *)
Definition socket_monitor_start (func : string -> string)
           (req : MonitorRequest Match) (polls : list (list string))
  : W (MatchResult Match) :=
  fun w =>
    (fst (start req (QueueMonitor "mitm.queue") [] (map (map func) polls)),
     record (MonitorStart (Monitoring.timeout req) (error_message req)
               (update_position req)) w).

(** [check_queue_socket_event]; the defaults are
    [raw_event=EXAMPLE_MESSAGE_PATTERN] and [timeout=30]. *)
Definition check_queue_socket_event (raw_event : string) (timeout : nat)
           (polls : list (list string)) : W unit :=
  let intercept_socket_data := fun data : string => data in
  let error_message := "Could not find the expected event in queue socket" in
  callback <~ wlift (make_callback raw_event (Some ".*")) ;;
  control_service "stop" "wazuh-analysisd" ;;;
  bind_unix_socket QUEUE_SOCKET_PATH UDP ;;;
  mitm_start QUEUE_SOCKET_PATH "AF_UNIX" UDP ;;;
  try_finally
    (socket_monitor_start intercept_socket_data
       {| timeout := timeout; callback := callback;
          error_message := error_message; update_position := false;
          accum_results := default_accum_results |} polls ;;;
     wret tt)
    (mitm_shutdown ;;;
     control_service "start" "wazuh-analysisd").

End Remote.

End Remote.

Import Remote.

(** The compiled form of a pattern of the fragment, for the examples. *)
Definition mini_regex (src : string) : MiniRe.re :=
  match MiniRe.compile src with
  | Some r => r
  | None => MiniRe.Void
  end.

(** The matcher [make_callback] builds on the reference engine, for the
    examples. *)
Definition mini_callback (src : string) : Callback string :=
  fun line =>
    match MiniRe.rmatch (mini_regex src) line with
    | Some m => VMatch m
    | None => VNone
    end.

(** A machine on which wazuh-analysisd runs and nothing intercepts. *)
Definition quiet_world : World :=
  {| analysisd_running := true; mitm_listening := false;
     mitm_loop_running := false; calls := [] |}.

(** ** More Python text primitives *)

Module PyText.

Definition newline : ascii := "010"%char.
Definition quote : ascii := "'"%char.

Definition carriage_return : ascii := "013"%char.

(** What a file opened with [open(path, 'r')] hands to the program: each
    carriage return followed by a newline, and each carriage return on its
    own, is read as one newline. *)
Fixpoint text_mode (raw : string) : string :=
  match raw with
  | EmptyString => EmptyString
  | String c raw' =>
      if Ascii.eqb c carriage_return then
        match raw' with
        | String d _ =>
            if Ascii.eqb d newline then text_mode raw'
            else String newline (text_mode raw')
        | EmptyString => String newline EmptyString
        end
      else String c (text_mode raw')
  end.

(** What [file.write(text)] puts into a file opened in text mode: on
    Windows each newline is written as a carriage return and a newline. *)
Definition written (windows : bool) (text : string) : string :=
  if windows then
    (fix go (s : string) : string :=
       match s with
       | EmptyString => EmptyString
       | String c s' =>
           if Ascii.eqb c newline
           then String carriage_return (String newline (go s'))
           else String c (go s')
       end) text
  else text.

(** The lines of a text that was read already, each with the newline that
    ends it; the last one may have none. *)
Fixpoint split_lines (s : string) : list string :=
  match s with
  | EmptyString => []
  | String c s' =>
      if Ascii.eqb c newline then String c EmptyString :: split_lines s'
      else match split_lines s' with
           | [] => [String c EmptyString]
           | l :: ls => String c l :: ls
           end
  end.

(** [file.read()] and [file.readlines()] on the bytes of a file opened with
    [open(path, 'r')]. *)
Definition read (raw : string) : string := text_mode raw.

Definition readlines (raw : string) : list string := split_lines (text_mode raw).

(** [s.split(sep)] for a separator of one character: always at least one
    piece. *)
Fixpoint split_on (sep : ascii) (s : string) : list string :=
  match s with
  | EmptyString => [EmptyString]
  | String c s' =>
      if Ascii.eqb c sep then EmptyString :: split_on sep s'
      else match split_on sep s' with
           | [] => [String c EmptyString]
           | l :: ls => String c l :: ls
           end
  end.

(** [s[:-1]] *)
Fixpoint drop_last (s : string) : string :=
  match s with
  | EmptyString => EmptyString
  | String c EmptyString => EmptyString
  | String c s' => String c (drop_last s')
  end.

(** [s.replace(old, new)] for an [old] of one character *)
Fixpoint replace_char (old : ascii) (new : string) (s : string) : string :=
  match s with
  | EmptyString => EmptyString
  | String c s' =>
      if Ascii.eqb c old then new ++ replace_char old new s'
      else String c (replace_char old new s')
  end.

(** [s.endswith(suffix)] *)
Fixpoint endswith (s suffix : string) : bool :=
  String.eqb s suffix ||
  match s with
  | EmptyString => false
  | String _ s' => endswith s' suffix
  end.

(** [s.encode()]: UTF-8, for the code points below 256. *)
Definition utf8_char (c : ascii) : list byte :=
  let n := PyStr.code c in
  if (n <? 128)%nat then [byte_of_ascii c]
  else [byte_of_ascii (ascii_of_nat (192 + n / 64));
        byte_of_ascii (ascii_of_nat (128 + n mod 64))].

Fixpoint utf8 (s : string) : list byte :=
  match s with
  | EmptyString => []
  | String c s' => (utf8_char c ++ utf8 s')%list
  end.

(** Does [c] occur in [s]? *)
Fixpoint has_char (c : ascii) (s : string) : bool :=
  match s with
  | EmptyString => false
  | String d s' => Ascii.eqb d c || has_char c s'
  end.

(** An insertion-ordered [dict] with [str] keys: [d[k] = v] keeps the place
    of a key that is there and puts a new key last. *)
Fixpoint dict_set {V} (k : string) (v : V) (d : list (string * V)) : list (string * V) :=
  match d with
  | [] => [(k, v)]
  | (k', v') :: d' =>
      if String.eqb k' k then (k', v) :: d' else (k', v') :: dict_set k v d'
  end.

Fixpoint dict_get {V} (k : string) (d : list (string * V)) : option V :=
  match d with
  | [] => None
  | (k', v') :: d' => if String.eqb k' k then Some v' else dict_get k d'
  end.

(** [dict(pairs)] *)
Definition dict_of_pairs {V} (pairs : list (string * V)) : list (string * V) :=
  fold_left (fun d kv => dict_set (fst kv) (snd kv) d) pairs [].

End PyText.

(** ** Failures of the helpers below *)

Inductive pyerror : Type :=
| ValueError
| FileNotFoundError
| KeyError (key : string).

Inductive res (A : Type) : Type :=
| Ok (a : A)
| Err (e : pyerror).

Arguments Ok {A} a.
Arguments Err {A} e.

(** ** modules/eps/event_monitor.py: get_analysisd_state *)

Module AnalysisdState.

Import PyText.

(** Lines 77 to 79: the lines that begin neither with [#] nor with a
    newline, without their single quotes, one after the other. *)
Definition kept (line : string) : bool :=
  negb (PyStr.is_prefix "#" line) && negb (PyStr.is_prefix (String newline "") line).

Definition state_data (lines : list string) : string :=
  fold_left
    (fun data line =>
       if kept line then data ++ replace_char quote "" line else data)
    lines "".

(** [for a, b in (element.split('=') ...)]: exactly two pieces, or the
    unpacking raises ValueError. *)
Definition key_value (element : string) : res (string * string) :=
  match split_on "=" element with
  | [a; b] => Ok (PyStr.strip a, PyStr.strip b)
  | _ => Err ValueError
  end.

Fixpoint key_values (elements : list string) : res (list (string * string)) :=
  match elements with
  | [] => Ok []
  | e :: rest =>
      match key_value e with
      | Err x => Err x
      | Ok kv =>
          match key_values rest with
          | Err x => Err x
          | Ok kvs => Ok (kv :: kvs)
          end
      end
  end.

(** [get_analysisd_state()], on the content of the state file ([None]:
    there is no such file); the file is read in text mode. *)
Definition get_analysisd_state (file : option string) : res (list (string * string)) :=
  match file with
  | None => Err FileNotFoundError
  | Some text =>
      let data := state_data (readlines text) in
      let data := drop_last data in
      match key_values (split_on newline data) with
      | Err x => Err x
      | Ok pairs => Ok (dict_of_pairs pairs)
      end
  end.

(** A state file as wazuh-analysisd writes it: one [key='value'] line per
    entry. *)
Definition state_line (kv : string * string) : string :=
  fst kv ++ "='" ++ snd kv ++ "'" ++ String newline "".

Definition state_file (kvs : list (string * string)) : string :=
  String.concat "" (map state_line kvs).

(** A key or a value that is written and read back as it is: no newline,
    no [=], no quote, no white space around it, and no carriage return,
    which reading the file would turn into a newline. *)
Definition plain (s : string) : Prop :=
  has_char newline s = false /\ has_char "=" s = false /\
  has_char quote s = false /\ PyStr.strip s = s /\
  has_char "013" s = false.

Definition entry_ok (kv : string * string) : Prop :=
  plain (fst kv) /\ plain (snd kv) /\ PyStr.is_prefix "#" (fst kv) = false.

End AnalysisdState.

(** Every character of [s] passes [p]. *)
Fixpoint all_chars (p : ascii -> bool) (s : string) : bool :=
  match s with
  | EmptyString => true
  | String c s' => p c && all_chars p s'
  end.

Definition no_space (s : string) : bool :=
  all_chars (fun c => negb (PyStr.isspace c)) s.

(** ** remote.py: the other helpers *)

Module RemoteMore.

Import PyText.

(** [send_syslog_message]; the default of [manager_address] is
    127.0.0.1.  The value returned or the exception, and the calls made on
    the socket, in order.  A datagram is sent whether or not anything
    listens: only a stream [connect] can be refused. *)
Definition send_syslog_message (message : string) (port : nat)
           (protocol manager_address : string) (peer : Peer)
  : outcome unit * list sock_call :=
  let sock :=
    if String.eqb (PyStr.upper protocol) UDP then SOCK_DGRAM else SOCK_STREAM in
  let message :=
    if endswith message (String newline "") then message
    else message ++ String newline "" in
  match sock, refuses peer with
  | SOCK_STREAM, true =>
      (Raise ConnectionRefusedError, [Socket sock; Connect manager_address port])
  | _, _ =>
      (Return tt,
       [Socket sock; Connect manager_address port; Send (utf8 message); Close])
  end.

Section RemoteMore.

Context {RE : ReModule}.

Variable REMOTED_DETECTOR_PREFIX : string.

(** [check_tcp_connection_established_log]; the defaults are
    [update_position=False] and [ip_address='127.0.0.1']. *)
Definition check_tcp_connection_established_log (wazuh_log_monitor : Monitor)
           (update_position : bool) (ip_address : string)
           (existing : list string) (polls : list (list string))
  : outcome unit * Monitor :=
  let callback_pattern := ".*New TCP connection at " ++ ip_address ++ ".*" in
  let error_message :=
    "Could not find the log with the following pattern " ++ callback_pattern in
  check_remoted_log_event REMOTED_DETECTOR_PREFIX wazuh_log_monitor callback_pattern
    error_message update_position REMOTED_GLOBAL_TIMEOUT existing polls.

(** [wait_to_remoted_key_update] *)
Definition wait_to_remoted_key_update (wazuh_log_monitor : Monitor)
           (existing : list string) (polls : list (list string))
  : outcome unit * Monitor :=
  let callback_pattern := ".*rem_keyupdate_main().*Checking for keys file changes." in
  let error_message := "Could not find the remoted key loading log" in
  check_remoted_log_event REMOTED_DETECTOR_PREFIX wazuh_log_monitor callback_pattern
    error_message false 20 existing polls.

(** [check_syslog_event]; the default of [timeout] is 10.  The message is
    sent first; the callback is built next; the monitor runs last, with
    [update_position=True], the default of [detect_archives_log_event]. *)
Definition check_syslog_event (wazuh_archives_log_monitor : Monitor)
           (message : string) (port : nat) (protocol : string) (timeout : nat)
           (peer : Peer) (existing : list string) (polls : list (list string))
  : (outcome unit * Monitor) * list sock_call :=
  match send_syslog_message message port protocol "127.0.0.1" peer with
  | (Raise e, sent) => ((Raise e, wazuh_archives_log_monitor), sent)
  | (Return _, sent) =>
      match callback_detect_syslog_event message with
      | Raise e => ((Raise e, wazuh_archives_log_monitor), sent)
      | Return callback =>
          (detect_archives_log_event wazuh_archives_log_monitor callback
             "Syslog message wasn't received or took too much time."
             true timeout existing polls,
           sent)
      end
  end.

End RemoteMore.

(** Is one of the calls a [Send] or a [Close]? *)
Definition sends_or_closes (c : sock_call) : bool :=
  match c with
  | Send _ => true
  | Close => true
  | _ => false
  end.

End RemoteMore.

Import RemoteMore.

(** ** tests/integration/test_active_response/test_execd/conftest.py *)

Module ExecdConftest.

Import PyText.

(** [s.rfind(c)] for a [c] of one character: the place of its last
    occurrence, or [None] where Python gives -1. *)
Fixpoint rfind (c : ascii) (s : string) : option nat :=
  match s with
  | EmptyString => None
  | String d s' =>
      match rfind c s' with
      | Some k => Some (S k)
      | None => if Ascii.eqb d c then Some 0 else None
      end
  end.

(** [s[:k]] for a [k] that is not negative *)
Fixpoint take (k : nat) (s : string) : string :=
  match k, s with
  | S k', String c s' => String c (take k' s')
  | _, _ => EmptyString
  end.

(** [get_current_version()] on a platform that is not Linux, on the
    content of the VERSION file, read in text mode:
    [version[:version.rfind(newline)]], where a missing newline gives the
    index -1. *)
Definition version_of_file (file : option string) : res string :=
  match file with
  | None => Err FileNotFoundError
  | Some raw =>
      let version := read raw in
      Ok (match rfind newline version with
          | Some k => take k version
          | None => drop_last version
          end)
  end.

(** [get_current_version()]: on Linux the VERSION entry of ossec-init.conf,
    read through ConfigObj and passed in here; elsewhere the VERSION
    file. *)
Definition get_current_version (platform_system : string)
           (config_version : res string) (version_file : option string)
  : res string :=
  if String.eqb platform_system "Linux" then config_version
  else version_of_file version_file.

Definition debug_line (platform_system : string) : string :=
  if String.eqb platform_system "Windows"
  then "windows.debug=2" ++ String newline ""
  else "execd.debug=2" ++ String newline "".

(** [set_debug_mode()], on the content of local_internal_options.conf:
    the file is read in text mode and left alone when one of its lines is
    the debug line, else a newline and the debug line are written at its
    end, in text mode.  The answer is the new content. *)
Definition set_debug_mode (platform_system : string) (file : option string)
  : res string :=
  match file with
  | None => Err FileNotFoundError
  | Some raw =>
      if existsb (String.eqb (debug_line platform_system)) (readlines raw)
      then Ok raw
      else Ok (raw ++ written (String.eqb platform_system "Windows")
                              (String newline (debug_line platform_system)))
  end.

End ExecdConftest.

(** ** tests/integration/test_logcollector/test_only_future_events *)

Module OnlyFutureEvents.

Import PyText.

Local Open Scope Z_scope.

(** [str(x)] for an [int] *)
Definition str_of_int (x : Z) : string := NilZero.string_of_int (Z.to_int x).

(** [math.ceil(a / b)] for a positive [b]: exact while [a] is below 2^53 in
    size, where the float quotient is a whole number only when the
    division is exact. *)
Definition ceil_div (a b : Z) : Z := - ((- a) / b).

(** [range(a, b)] *)
Definition range (a b : Z) : list Z :=
  map (fun i => a + Z.of_nat i) (seq 0 (Z.to_nat (b - a))).

Definition log_line (log_line_message : string) (x : Z) : string :=
  log_line_message ++ str_of_int x ++ String newline "".

(** [add_log_data(log_path, log_line_message, size_kib, line_start)], on
    the text of the log (empty when the file is not there yet): the new
    text and the number returned. *)
Definition add_log_data (log : string) (log_line_message : string)
           (size_kib line_start : Z) : string * Z :=
  if negb (Nat.eqb (String.length log_line_message) 0) then
    let lines := ceil_div (size_kib * 1024) (Z.of_nat (String.length log_line_message)) in
    (log ++ String.concat ""
             (map (log_line log_line_message)
                  (range line_start (line_start + lines + 1))),
     line_start + lines - 1)
  else (log, 0).

End OnlyFutureEvents.

(** ** qa_ctl/deployment/DockerWrapper.py *)

Module DockerWrapper.

(** [docker.errors.NotFound], [docker.errors.APIError] and
    [docker.errors.BuildError] *)
Inductive docker_error : Type := NotFound | APIError | BuildError.

Inductive dres (A : Type) : Type :=
| DOk (a : A)
| DErr (e : docker_error).

Arguments DOk {A} a.
Arguments DErr {A} e.

Section Client.

(** The docker client: the state of the daemon it talks to and the calls
    the class makes on it. *)
Variables (Daemon Image Container : Type).

Definition DM (A : Type) : Type := Daemon -> dres A * Daemon.

Variable images_build : string -> DM Image.
Variable images_remove : Image -> bool -> DM unit.
Variable containers_get : string -> DM Container.
Variable container_restart : Container -> DM unit.
Variable container_stop : Container -> DM unit.
Variable container_remove : Container -> DM unit.
Variable container_status : Container -> string.

Definition dret {A} (a : A) : DM A := fun d => (DOk a, d).

Definition dbind {A B} (m : DM A) (k : A -> DM B) : DM B :=
  fun d =>
    match m d with
    | (DOk a, d') => k a d'
    | (DErr e, d') => (DErr e, d')
    end.

(** [try: body except docker.errors.NotFound: handler] *)
Definition except_not_found {A} (body : DM A) (handler : DM A) : DM A :=
  fun d =>
    match body d with
    | (DErr NotFound, d') => handler d'
    | other => other
    end.

Record DockerWrapper : Type := {
  dockerfile_path : string;
  name : string;
  remove : bool;
  detach : bool;
  ports : option (list (string * string));
  stdout : bool;
  stderr : bool;
  ip : option string;
  network_name : option string;
  image : Image
}.

(** [__init__]; the defaults are [remove=False], [ports=None],
    [detach=True], [stdout=False], [stderr=False], [ip=None],
    [network_name=None]. *)
Definition init (dockerfile_path name : string) (remove : bool)
           (ports : option (list (string * string))) (detach stdout stderr : bool)
           (ip network_name : option string) : DM DockerWrapper :=
  let stdout := if negb detach then true else stdout in
  let stderr := if negb detach then true else stderr in
  dbind (images_build dockerfile_path)
        (fun image =>
           dret {| dockerfile_path := dockerfile_path; name := name;
                   remove := remove; detach := detach; ports := ports;
                   stdout := stdout; stderr := stderr; ip := ip;
                   network_name := network_name; image := image |}).

Definition get_container (self : DockerWrapper) : DM Container :=
  containers_get (name self).

Definition restart (self : DockerWrapper) : DM unit :=
  except_not_found (dbind (get_container self) container_restart) (dret tt).

Definition halt (self : DockerWrapper) : DM unit :=
  except_not_found (dbind (get_container self) container_stop) (dret tt).

Definition destroy (self : DockerWrapper) (remove_image : bool) : DM unit :=
  dbind (except_not_found (halt self) (dret tt))
        (fun _ =>
           dbind (except_not_found (dbind (get_container self) container_remove)
                                   (dret tt))
                 (fun _ =>
                    if remove_image then images_remove (image self) true
                    else dret tt)).

Definition get_name (self : DockerWrapper) : string := name self.

Definition status (self : DockerWrapper) : DM string :=
  except_not_found
    (dbind (get_container self) (fun c => dret (container_status c)))
    (dret "not_created").

End Client.

End DockerWrapper.

(** A docker daemon for the examples: the names of the containers it
    has; an image is the path it was built from. *)
Definition toy_get (name : string) : DockerWrapper.DM (list string) string :=
  fun d =>
    if existsb (String.eqb name) d then (DockerWrapper.DOk name, d)
    else (DockerWrapper.DErr DockerWrapper.NotFound, d).

Definition toy_build (path : string) : DockerWrapper.DM (list string) string :=
  fun d => (DockerWrapper.DOk path, d).

(** * Properties *)

Unset Implicit Arguments.

(** ** Examples for the string primitives and the reference engine *)

Example split_ex1 :
  PyStr.split "  Started   (pid: 1).
   Listening " = ["Started"; "(pid:"; "1)."; "Listening"].
Proof. reflexivity. Qed.

Example split_ex2 : PyStr.split "   " = [].
Proof. reflexivity. Qed.

Example strip_ex : PyStr.strip "  a  b   " = "a  b".
Proof. reflexivity. Qed.

Example upper_ex : PyStr.upper "Tcp,udp" = "TCP,UDP".
Proof. reflexivity. Qed.

Example mini_ex1 :
  mini_search ".*wazuh-remoted.*Started \(pid: \d+\)\."
              "2021/01/01 00:00:00 wazuh-remoted: INFO: Started (pid: 4242). Listening"
  = Some true.
Proof. vm_compute. reflexivity. Qed.

Example mini_ex2 : mini_search "a\s+b" "a   b" = Some true.
Proof. vm_compute. reflexivity. Qed.

Example mini_ex3 : mini_search "a\s+b" "ab" = Some false.
Proof. vm_compute. reflexivity. Qed.

Example mini_ex4 : mini_search "(ab|c)+d" "abcabd" = Some true.
Proof. vm_compute. reflexivity. Qed.

Example mini_ex5 : mini_search "(ab" "ab" = None.
Proof. vm_compute. reflexivity. Qed.

Example mini_ex6 : mini_search "b" "ab" = Some false.
Proof. vm_compute. reflexivity. Qed.

(** ** White-space normalisation: [split] then [join] *)

Section Normalisation.

Import PyStr.

Let tok : string := "\s+".

Definition tail_join (ws : list string) : string :=
  match ws with
  | [] => EmptyString
  | _ => tok ++ join tok ws
  end.

Lemma append_empty_r (s : string) : s ++ "" = s.
Proof. induction s as [|c s IH]; simpl; [reflexivity | now rewrite IH]. Qed.

Lemma append_assoc (a b c : string) : (a ++ b) ++ c = a ++ b ++ c.
Proof. induction a as [|x a IH]; simpl; [reflexivity | now rewrite IH]. Qed.

Lemma join_cons (x : string) (r : list string) :
  join tok (x :: r) = x ++ tail_join r.
Proof.
  destruct r as [|y r]; simpl.
  - now rewrite append_empty_r.
  - reflexivity.
Qed.

Lemma rstrip_head (c : ascii) (s : string) :
  rstrip (String c s) = EmptyString \/ exists r, rstrip (String c s) = String c r.
Proof.
  simpl. destruct (rstrip s) as [|d r].
  - destruct (isspace c); [now left | right; now exists EmptyString].
  - right. now exists (String d r).
Qed.

Lemma rstrip_empty_words (s : string) :
  rstrip s = EmptyString -> words s = (EmptyString, []).
Proof.
  induction s as [|c s IH]; simpl; [reflexivity|].
  destruct (rstrip s) as [|d r] eqn:E.
  - destruct (isspace c) eqn:Hc; [|discriminate].
    intros _. now rewrite IH.
  - discriminate.
Qed.

Lemma words_head_space (c : ascii) (s : string) :
  isspace c = true -> fst (words (String c s)) = EmptyString.
Proof. intros H. simpl. destruct (words s). now rewrite H. Qed.

Lemma words_head_word (c : ascii) (s : string) :
  isspace c = false -> exists w, fst (words (String c s)) = String c w.
Proof. intros H. simpl. destruct (words s) as [w ws]. rewrite H. now exists w. Qed.

Lemma collapse_space_cons (c d : ascii) (r : string) :
  isspace c = true ->
  collapse_whitespace (String c (String d r)) =
  if isspace d then collapse_whitespace (String d r)
  else tok ++ collapse_whitespace (String d r).
Proof. intros H. simpl. rewrite H. reflexivity. Qed.

Lemma collapse_word_cons (c : ascii) (r : string) :
  isspace c = false ->
  collapse_whitespace (String c r) = String c (collapse_whitespace r).
Proof. intros H. simpl. rewrite H. reflexivity. Qed.

Lemma rstrip_word (c : ascii) (s : string) :
  isspace c = false -> rstrip (String c s) = String c (rstrip s).
Proof. intros H. simpl. rewrite H. now destruct (rstrip s). Qed.

Lemma words_rstrip (s : string) :
  fst (words s) ++ tail_join (snd (words s)) = collapse_whitespace (rstrip s).
Proof.
  induction s as [|c s IH]; [reflexivity|].
  destruct (isspace c) eqn:Hc.
  2: rewrite (rstrip_word c s Hc).
  all: cbn [words rstrip].
  all: destruct (words s) as [w ws] eqn:Ew; cbn [fst snd] in IH.
  all: rewrite Hc; cbn [fst snd].
  - destruct (rstrip s) as [|d r] eqn:Er.
    + pose proof (rstrip_empty_words s Er) as Hw.
      rewrite Ew in Hw. injection Hw as -> ->. reflexivity.
    + destruct s as [|d' s']; [discriminate|].
      destruct (rstrip_head d' s') as [H0|[r' Hr']]; [congruence|].
      assert (d' = d) by congruence. subst d'.
      rewrite (collapse_space_cons c d r Hc).
      destruct (isspace d) eqn:Hd.
      * pose proof (words_head_space d s' Hd) as Hw. rewrite Ew in Hw.
        cbn in Hw. subst w. cbn [cons_word]. exact IH.
      * destruct (words_head_word d s' Hd) as [w' Hw]. rewrite Ew in Hw.
        cbn in Hw. subst w. cbn [cons_word tail_join].
        rewrite join_cons, <- IH. reflexivity.
  - rewrite (collapse_word_cons c _ Hc). cbn [append]. now rewrite IH.
Qed.

Lemma split_space (c : ascii) (s : string) :
  isspace c = true -> split (String c s) = split s.
Proof.
  intros H. unfold split. simpl. destruct (words s). now rewrite H.
Qed.

Lemma strip_space (c : ascii) (s : string) :
  isspace c = true -> strip (String c s) = strip s.
Proof.
  intros H. unfold strip. cbn [rstrip].
  destruct (rstrip s) as [|d r]; [now rewrite H|].
  cbn [lstrip]. now rewrite H.
Qed.

(** [split] followed by [join] on [\s+] turns each run of white space
    inside the stripped text into one token. *)
Lemma join_split_strip (s : string) :
  join "\s+" (split s) = collapse_whitespace (strip s).
Proof.
  fold tok.
  induction s as [|c s IH]; [reflexivity|].
  destruct (isspace c) eqn:Hc.
  - now rewrite split_space, strip_space.
  - unfold split, strip. pose proof (words_rstrip s) as Hw.
    rewrite (rstrip_word c s Hc).
    cbn [words]. destruct (words s) as [w ws]. cbn [fst snd] in Hw.
    rewrite Hc. cbn [cons_word]. rewrite join_cons.
    cbn [lstrip]. rewrite Hc, (collapse_word_cons c _ Hc). cbn [append].
    now rewrite Hw.
Qed.

End Normalisation.

(** ** The callback construction of event_monitor.py *)

Section AnalysisdCallback.

Context {RE : ReModule}.

Lemma analysisd_regex_strip (pattern : string) (prefix : option string) :
  analysisd_regex pattern prefix =
  PyStr.format prefix ++ collapse_whitespace (PyStr.strip pattern).
Proof. unfold analysisd_regex. now rewrite join_split_strip. Qed.

Lemma make_analysisd_callback_compiled (pattern : string) (prefix : option string)
      (regex : Pattern) :
  re_compile (analysisd_regex pattern prefix) = Some regex ->
  make_analysisd_callback pattern prefix =
  Return (fun line => VBool (is_not_None (re_match regex line))).
Proof. intros H. unfold make_analysisd_callback. now rewrite H. Qed.

Lemma make_analysisd_callback_error (pattern : string) (prefix : option string) :
  re_compile (analysisd_regex pattern prefix) = None ->
  make_analysisd_callback pattern prefix = Raise ReError.
Proof. intros H. unfold make_analysisd_callback. now rewrite H. Qed.

Lemma make_analysisd_callback_inv (pattern : string) (prefix : option string)
      (cb : Callback Match) :
  make_analysisd_callback pattern prefix = Return cb ->
  exists regex,
    re_compile (analysisd_regex pattern prefix) = Some regex /\
    cb = fun line => VBool (is_not_None (re_match regex line)).
Proof.
  unfold make_analysisd_callback.
  destruct (re_compile (analysisd_regex pattern prefix)) as [regex|]; [|discriminate].
  intros H. injection H as <-. now exists regex.
Qed.

(** C1, as the code has it: for every pattern and every prefix string,
    the matcher of make_analysisd_callback is built by compiling the
    prefix followed by the pattern in which leading and trailing white
    space is dropped and every other run of white space is one [\s+]
    token; it accepts a line exactly when the compiled expression matches
    at the first character of the line. *)
Theorem make_analysisd_callback_normalised
        (pattern prefix : string) (regex : Pattern) :
  re_compile (prefix ++ collapse_whitespace (PyStr.strip pattern)) = Some regex ->
  analysisd_regex pattern (Some prefix)
  = prefix ++ collapse_whitespace (PyStr.strip pattern) /\
  exists cb,
    make_analysisd_callback pattern (Some prefix) = Return cb /\
    forall line,
      truthy (cb line) = true <-> exists m, re_match regex line = Some m.
Proof.
  intros H. pose proof (analysisd_regex_strip pattern (Some prefix)) as E.
  cbn [PyStr.format] in E. split; [exact E|].
  rewrite <- E in H. eexists. split.
  - apply make_analysisd_callback_compiled. exact H.
  - intros line. cbn. destruct (re_match regex line) as [m|]; cbn.
    + split; [intros _; now exists m | reflexivity].
    + split; [discriminate | intros [m Hm]; discriminate].
Qed.

(** C5, as the code has it: the matcher of make_analysisd_callback gives
    the boolean True for a line the compiled expression matches and the
    boolean False for a line it does not match. *)
Theorem make_analysisd_callback_boolean
        (pattern : string) (prefix : option string) (cb : Callback Match) :
  make_analysisd_callback pattern prefix = Return cb ->
  exists regex,
    re_compile (analysisd_regex pattern prefix) = Some regex /\
    forall line,
      (cb line = VBool true /\ exists m, re_match regex line = Some m) \/
      (cb line = VBool false /\ re_match regex line = None).
Proof.
  intros H. destruct (make_analysisd_callback_inv pattern prefix cb H) as [regex [Hc ->]].
  exists regex. split; [exact Hc|]. intros line.
  destruct (re_match regex line) as [m|]; cbn.
  - left. split; [reflexivity | now exists m].
  - right. now split.
Qed.

(** C6, as the code has it: with the empty string as prefix,
    make_analysisd_callback compiles the normalised pattern with nothing
    in front of it, and the matcher accepts a line exactly when that
    expression matches at the first character of the line. *)
Theorem make_analysisd_callback_empty_prefix (pattern : string) (regex : Pattern) :
  re_compile (PyStr.join "\s+" (PyStr.split pattern)) = Some regex ->
  analysisd_regex pattern (Some "") = PyStr.join "\s+" (PyStr.split pattern) /\
  exists cb,
    make_analysisd_callback pattern (Some "") = Return cb /\
    forall line,
      truthy (cb line) = true <-> exists m, re_match regex line = Some m.
Proof.
  intros H. split; [reflexivity|].
  eexists. split.
  - apply make_analysisd_callback_compiled. exact H.
  - intros line. cbn. destruct (re_match regex line) as [m|]; cbn.
    + split; [intros _; now exists m | reflexivity].
    + split; [discriminate | intros [m Hm]; discriminate].
Qed.

(** The callback construction of the monitoring module, as the
    specification describes it: [None] and the empty string as prefix
    give the same matcher. *)
Lemma make_callback_no_prefix (pattern : string) :
  make_callback pattern None = make_callback pattern (Some "").
Proof. reflexivity. Qed.

End AnalysisdCallback.

(** Concrete runs, on the reference engine. *)

Section AnalysisdCallbackRuns.

Existing Instance mini_re.

Lemma make_analysisd_callback_normalised_witness :
  let pattern := "  EPS   limit
     disabled " in
  let prefix := ".*wazuh-analysisd.*" in
  let regex := mini_regex ".*wazuh-analysisd.*EPS\s+limit\s+disabled" in
  re_compile
    (prefix ++ collapse_whitespace (PyStr.strip pattern)) = Some regex /\
  analysisd_regex pattern (Some prefix)
  = prefix ++ collapse_whitespace (PyStr.strip pattern) /\
  exists cb,
    make_analysisd_callback pattern (Some prefix) = Return cb /\
    forall line,
      truthy (cb line) = true <-> exists m, re_match regex line = Some m.
Proof.
  intros pattern prefix regex.
  assert (H : re_compile
                (prefix ++ collapse_whitespace (PyStr.strip pattern)) = Some regex)
    by (vm_compute; reflexivity).
  split; [exact H|].
  exact (@make_analysisd_callback_normalised mini_re pattern prefix regex H).
Defined.

(** C1 as stated fails on a pattern that begins with white space: the code
    drops the leading run, the claim turns it into a token.  The matcher of
    the code accepts the line xa; the expression of the claim does not
    match it. *)
Lemma make_analysisd_callback_every_run_counterexample :
  let pattern := " a" in
  let prefix := "x" in
  prefix <> "" /\
  analysisd_regex pattern (Some prefix) = "xa" /\
  prefix ++ collapse_whitespace pattern = "x\s+a" /\
  analysisd_regex pattern (Some prefix) <> prefix ++ collapse_whitespace pattern /\
  (exists cb,
     make_analysisd_callback pattern (Some prefix) = Return cb /\
     cb "xa" = VBool true) /\
  mini_search (prefix ++ collapse_whitespace pattern) "xa" = Some false.
Proof.
  cbv zeta. repeat split; try discriminate.
  eexists. split; [vm_compute; reflexivity | vm_compute; reflexivity].
Qed.

(** C5 as stated fails: on a line that matches the matcher gives the
    boolean True, not a match object, and on a line that does not match it
    gives the boolean False, not None. *)
Lemma make_analysisd_callback_match_object_counterexample :
  exists cb,
    make_analysisd_callback "a" (Some "") = Return cb /\
    re_match (mini_regex "a") "ab" = Some "ab" /\
    cb "ab" = VBool true /\
    (forall m, cb "ab" <> VMatch m) /\
    re_match (mini_regex "a") "b" = None /\
    cb "b" = VBool false /\
    cb "b" <> VNone.
Proof.
  eexists. split; [vm_compute; reflexivity|].
  repeat split; try (vm_compute; reflexivity); try discriminate.
Qed.

Lemma make_analysisd_callback_boolean_witness :
  let cb : Callback (Match) :=
    fun line => VBool (is_not_None (re_match (mini_regex "a\s+b") line)) in
  make_analysisd_callback "a   b" (Some "") = Return cb /\
  exists regex,
    re_compile (analysisd_regex "a   b" (Some "")) = Some regex /\
    forall line,
      (cb line = VBool true /\ exists m, re_match regex line = Some m) \/
      (cb line = VBool false /\ re_match regex line = None).
Proof.
  intros cb.
  assert (H : make_analysisd_callback "a   b" (Some "") = Return cb)
    by (vm_compute; reflexivity).
  split; [exact H|].
  exact (@make_analysisd_callback_boolean mini_re "a   b" (Some "") cb H).
Defined.

(** C6 as stated fails on the prefix None: the code formats it as the text
    None and compiles that in front of the pattern, so the matcher refuses
    the line x and accepts the line Nonex. *)
Lemma make_analysisd_callback_none_prefix_counterexample :
  analysisd_regex "x" None = "Nonex" /\
  analysisd_regex "x" None <> PyStr.join "\s+" (PyStr.split "x") /\
  exists cb,
    make_analysisd_callback "x" None = Return cb /\
    cb "x" = VBool false /\
    cb "Nonex" = VBool true /\
    mini_search (PyStr.join "\s+" (PyStr.split "x")) "x" = Some true.
Proof.
  repeat split; try discriminate.
  eexists. split; [vm_compute; reflexivity|].
  repeat split; vm_compute; reflexivity.
Qed.

Lemma make_analysisd_callback_empty_prefix_witness :
  let pattern := "Accepted  publickey" in
  let regex := mini_regex "Accepted\s+publickey" in
  re_compile (PyStr.join "\s+" (PyStr.split pattern)) = Some regex /\
  analysisd_regex pattern (Some "") = PyStr.join "\s+" (PyStr.split pattern) /\
  exists cb,
    make_analysisd_callback pattern (Some "") = Return cb /\
    forall line,
      truthy (cb line) = true <-> exists m, re_match regex line = Some m.
Proof.
  intros pattern regex.
  assert (H : re_compile
                (PyStr.join "\s+" (PyStr.split pattern)) = Some regex)
    by (vm_compute; reflexivity).
  split; [exact H|].
  exact (@make_analysisd_callback_empty_prefix mini_re pattern regex H).
Defined.

End AnalysisdCallbackRuns.

(** ** The monitor: scanning and polling *)

Section MonitorFacts.

Variable M : Type.
Variable cb : Callback M.
Variable n : nat.

Lemma matches_of_cons (l : string) (rest : list string) :
  matches_of cb (l :: rest) =
  if truthy (cb l) then cb l :: matches_of cb rest else matches_of cb rest.
Proof. reflexivity. Qed.

Lemma matches_of_app (l1 l2 : list string) :
  matches_of cb (l1 ++ l2)%list = (matches_of cb l1 ++ matches_of cb l2)%list.
Proof. unfold matches_of. now rewrite map_app, filter_app. Qed.

(** Scanning two batches one after the other is scanning them joined:
    the counter and the accumulator carry over. *)
Lemma scan_app (l1 l2 : list string) :
  forall acc pos,
    scan cb n acc pos (l1 ++ l2)%list =
    match scan cb n acc pos l1 with
    | (acc', pos', true) => (acc', pos', true)
    | (acc', pos', false) => scan cb n acc' pos' l2
    end.
Proof.
  induction l1 as [|l rest IH]; intros acc pos; [reflexivity|].
  cbn [scan app]. destruct (truthy (cb l)).
  - destruct (List.length (acc ++ [cb l]) =? n)%nat; [reflexivity | apply IH].
  - apply IH.
Qed.

Lemma scan_unfinished (lines : list string) :
  forall acc pos acc' pos',
    scan cb n acc pos lines = (acc', pos', false) ->
    pos' = pos + List.length lines.
Proof.
  induction lines as [|l rest IH]; intros acc pos acc' pos' H; cbn [scan] in H.
  - injection H as _ <-. cbn. lia.
  - cbn [List.length]. destruct (truthy (cb l)).
    + destruct (List.length (acc ++ [cb l]) =? n)%nat; [discriminate|].
      apply IH in H. lia.
    + apply IH in H. lia.
Qed.

(** What a scan gives, by the number of matches among the lines. *)
Lemma scan_spec (lines : list string) :
  forall acc pos,
    List.length acc < n ->
    (List.length acc + List.length (matches_of cb lines) < n ->
     scan cb n acc pos lines =
     ((acc ++ matches_of cb lines)%list, pos + List.length lines, false)) /\
    (n <= List.length acc + List.length (matches_of cb lines) ->
     exists pos',
       scan cb n acc pos lines =
       ((acc ++ firstn (n - List.length acc) (matches_of cb lines))%list, pos', true)).
Proof.
  induction lines as [|l rest IH]; intros acc pos Hacc.
  - cbn. split.
    + intros _. now rewrite app_nil_r, Nat.add_0_r.
    + intros H. lia.
  - rewrite matches_of_cons. cbn [scan List.length].
    destruct (truthy (cb l)) eqn:Hl.
    + cbn [List.length].
      destruct (List.length (acc ++ [cb l]) =? n)%nat eqn:Hn.
      * apply Nat.eqb_eq in Hn. rewrite length_app in Hn. cbn in Hn. split.
        -- intros H. lia.
        -- intros _. exists (S pos).
           replace (n - List.length acc) with 1 by lia. reflexivity.
      * apply Nat.eqb_neq in Hn. rewrite length_app in Hn. cbn in Hn.
        assert (Hacc' : List.length (acc ++ [cb l]) < n)
          by (rewrite length_app; cbn; lia).
        destruct (IH (acc ++ [cb l])%list (S pos) Hacc') as [IH1 IH2].
        rewrite length_app in IH1, IH2. cbn [List.length] in IH1, IH2.
        split.
        -- intros H. rewrite IH1 by lia. rewrite <- app_assoc. cbn [app].
           f_equal. f_equal. lia.
        -- intros H. destruct IH2 as [pos' E]; [lia|]. exists pos'.
           rewrite E. rewrite <- app_assoc. cbn [app].
           replace (n - List.length acc) with (S (n - (List.length acc + 1))) by lia.
           reflexivity.
    + destruct (IH acc (S pos) Hacc) as [IH1 IH2]. split.
      * intros H. rewrite IH1 by lia. f_equal. f_equal. lia.
      * intros H. destruct IH2 as [pos' E]; [lia|]. now exists pos'.
Qed.

(** The poll loop scans, batch after batch, what one scan of everything
    that arrives would scan: counts are kept from one poll iteration to the
    next. *)
Lemma poll_loop_scan (polls : list (list string)) :
  polls <> [] ->
  forall acc src pos,
    poll_loop cb n acc src pos polls =
    match scan cb n acc pos (skipn pos (src ++ List.concat polls)) with
    | (acc', pos', true) => Some (acc', pos')
    | (_, _, false) => None
    end.
Proof.
  induction polls as [|arrived rest IH]; intros Hne acc src pos; [congruence|].
  cbn [poll_loop List.concat].
  rewrite (app_assoc src arrived (List.concat rest)).
  rewrite (skipn_app pos (src ++ arrived)%list (List.concat rest)), scan_app.
  destruct (scan cb n acc pos (skipn pos (src ++ arrived))) as [[acc' pos'] done] eqn:E.
  destruct done; [reflexivity|].
  apply scan_unfinished in E. rewrite length_skipn in E.
  destruct rest as [|b rest'].
  - cbn. now rewrite skipn_nil.
  - rewrite IH by discriminate.
    rewrite (skipn_app pos' (src ++ arrived)%list (List.concat (b :: rest'))).
    rewrite (skipn_all2 (n := pos') (src ++ arrived)%list) by lia. cbn [app].
    replace (pos' - List.length (src ++ arrived)) with (pos - List.length (src ++ arrived)) by lia.
    reflexivity.
Qed.

End MonitorFacts.

Section StartFacts.

Variable M : Type.

Lemma success_many (k : nat) (acc : list (value M)) :
  1 < k -> success k acc = Many acc.
Proof.
  intros H. destruct k as [|[|k]]; try lia. reflexivity.
Qed.

(** The result of [start], by the number of matches among the lines the
    call gets to read. *)
Lemma start_result (req : MonitorRequest M) (mon : Monitor)
      (existing : list string) (polls : list (list string)) :
  1 <= accum_results req ->
  fst (start req mon existing polls) =
  let ms := matches_of (callback req) (observed req mon existing polls) in
  if (accum_results req <=? List.length ms)%nat
  then Return (success (accum_results req) (firstn (accum_results req) ms))
  else Raise (TimeoutError (error_message req)).
Proof.
  intros Hn. unfold start, observed. cbv zeta.
  destruct polls as [|b rest].
  - cbn [poll_loop matches_of map filter List.length fst].
    destruct (Nat.leb_spec (accum_results req) 0); [lia | reflexivity].
  - rewrite poll_loop_scan by discriminate.
    set (off := if update_position req then last_read_offset mon else 0).
    set (lines := skipn off (existing ++ List.concat (b :: rest))).
    assert (H0 : @List.length (value M) [] < accum_results req) by (cbn; lia).
    destruct (scan_spec M (callback req) (accum_results req) lines [] off H0)
      as [S1 S2].
    cbn [List.length app] in S1, S2. rewrite Nat.sub_0_r in S2.
    destruct (Nat.leb_spec (accum_results req)
                (List.length (matches_of (callback req) lines))) as [Hle|Hlt].
    + destruct (S2 Hle) as [pos' E]. rewrite E. reflexivity.
    + rewrite (S1 Hlt). reflexivity.
Qed.

Lemma start_keeps_position (req : MonitorRequest M) (mon : Monitor)
      (existing : list string) (polls : list (list string)) :
  update_position req = false ->
  snd (start req mon existing polls) = mon.
Proof.
  intros H. unfold start. rewrite H.
  destruct (poll_loop (callback req) (accum_results req) [] existing 0 polls)
    as [[acc pos]|]; reflexivity.
Qed.

Lemma start_timeout_keeps_monitor (req : MonitorRequest M) (mon : Monitor)
      (existing : list string) (polls : list (list string)) (e : exn) :
  fst (start req mon existing polls) = Raise e ->
  start req mon existing polls = (Raise (TimeoutError (error_message req)), mon).
Proof.
  unfold start.
  destruct (poll_loop (callback req) (accum_results req) [] existing
              (if update_position req then last_read_offset mon else 0) polls)
    as [[acc pos]|]; cbn; [discriminate | reflexivity].
Qed.

End StartFacts.

(** ** The monitor: timeouts, accumulation, rescans *)

Section MonitorClaims.

Context {RE : ReModule}.

Lemma bind_raise (A B : Type) (r : outcome A) (k : A -> outcome B) (e : exn) :
  r = Raise e -> bind r k = Raise e.
Proof. now intros ->. Qed.

Lemma request_eta (req : MonitorRequest Match) :
  {| timeout := timeout req; callback := callback req;
     update_position := update_position req;
     accum_results := accum_results req;
     error_message := error_message req |} = req.
Proof. now destruct req. Qed.

(** C2: when fewer matches than accum_results are among the lines read
    before the timeout, start raises the TimedOut failure with the
    error_message of the request, and detect_archives_log_event and
    check_analysisd_event raise that same failure to their caller. *)
Theorem monitor_timeout_is_raised
        (req : MonitorRequest Match) (mon : Monitor)
        (existing : list string) (polls : list (list string)) :
  List.length (matches_of (callback req) (observed req mon existing polls))
  < accum_results req ->
  start req mon existing polls = (Raise (TimeoutError (error_message req)), mon) /\
  (accum_results req = default_accum_results ->
   detect_archives_log_event mon (callback req) (error_message req)
     (update_position req) (timeout req) existing polls
   = (Raise (TimeoutError (error_message req)), mon)) /\
  (forall file_monitor pattern prefix file_to_monitor,
      resolve_monitor file_monitor file_to_monitor = mon ->
      make_analysisd_callback pattern prefix = Return (callback req) ->
      check_analysisd_event file_monitor pattern (Some (error_message req))
        (update_position req) (timeout req) prefix (accum_results req)
        file_to_monitor existing polls
      = (Raise (TimeoutError (error_message req)), mon)).
Proof.
  intros Hfew.
  assert (Hstart : start req mon existing polls
                   = (Raise (TimeoutError (error_message req)), mon)).
  { apply start_timeout_keeps_monitor with (e := TimeoutError (error_message req)).
    rewrite start_result by lia. cbv zeta.
    destruct (Nat.leb_spec (accum_results req)
                (List.length (matches_of (callback req)
                                (observed req mon existing polls)))); [lia|reflexivity]. }
  split; [exact Hstart|]. split.
  - intros Hn. unfold detect_archives_log_event. rewrite <- Hn, request_eta, Hstart.
    reflexivity.
  - intros file_monitor pattern prefix file_to_monitor Hmon Hcb.
    unfold check_analysisd_event, check_analysisd_event_call.
    rewrite Hcb, Hmon. cbn [bind resolve_message]. rewrite request_eta, Hstart.
    reflexivity.
Qed.

(** C4: without update_position, two calls of start in a row on a source
    that does not change give the same result; each scans the whole source
    from offset 0, whatever offset the monitor remembers, and leaves the
    monitor as it was.  The same holds through check_remoted_log_event. *)
Theorem start_twice_without_update_position
        (REMOTED_DETECTOR_PREFIX : string)
        (req : MonitorRequest Match) (mon : Monitor)
        (existing : list string) (k1 k2 : nat) :
  update_position req = false ->
  let first := start req mon existing (repeat [] (S k1)) in
  let second := start req (snd first) existing (repeat [] (S k2)) in
  fst second = fst first /\ snd first = mon /\ snd second = mon /\
  fst first =
    match scan (callback req) (accum_results req) [] 0 existing with
    | (acc, _, true) => Return (success (accum_results req) acc)
    | (_, _, false) => Raise (TimeoutError (error_message req))
    end /\
  forall pattern message timeout,
    let first' :=
      check_remoted_log_event REMOTED_DETECTOR_PREFIX mon pattern message false
        timeout existing (repeat [] (S k1)) in
    let second' :=
      check_remoted_log_event REMOTED_DETECTOR_PREFIX (snd first') pattern message
        false timeout existing (repeat [] (S k2)) in
    fst second' = fst first' /\ snd first' = mon /\ snd second' = mon.
Proof.
  assert (Hconcat : forall k, List.concat (repeat (@nil string) k) = []).
  { induction k as [|k IH]; [reflexivity | exact IH]. }
  assert (Hscan : forall (r : MonitorRequest Match) (m : Monitor) (k : nat),
             update_position r = false ->
             start r m existing (repeat [] (S k)) =
             (match scan (callback r) (accum_results r) [] 0 existing with
              | (acc, _, true) => Return (success (accum_results r) acc)
              | (_, _, false) => Raise (TimeoutError (error_message r))
              end, m)).
  { intros r m k Hr. unfold start. rewrite Hr.
    rewrite poll_loop_scan by discriminate.
    rewrite Hconcat, app_nil_r. cbn [skipn].
    destruct (scan (callback r) (accum_results r) [] 0 existing) as [[acc pos] done].
    destruct done; reflexivity. }
  intros Hupd first second. subst first second.
  rewrite (Hscan req mon k1 Hupd). cbn [fst snd]. rewrite (Hscan req mon k2 Hupd).
  cbn [fst snd].
  split; [reflexivity|]. split; [reflexivity|]. split; [reflexivity|].
  split; [reflexivity|].
  intros pattern message timeout.
  unfold check_remoted_log_event.
  destruct (make_callback pattern (Some REMOTED_DETECTOR_PREFIX)) as [cb|e].
  - rewrite !Hscan by reflexivity. cbn [fst snd]. repeat split.
  - cbn [fst snd]. repeat split.
Qed.

End MonitorClaims.

Section Accumulation.

Variable M : Type.

(** C3: with accum_results = N > 1, start returns a Success exactly when
    at least N matching lines are among the lines read in all the poll
    iterations of the call together; the Success carries the first N
    matches, in order; with fewer the call times out. *)
Theorem start_accumulates_across_polls
        (req : MonitorRequest M) (mon : Monitor)
        (existing : list string) (polls : list (list string)) :
  1 < accum_results req ->
  let ms := matches_of (callback req) (observed req mon existing polls) in
  ((exists r, fst (start req mon existing polls) = Return r)
   <-> accum_results req <= List.length ms) /\
  (accum_results req <= List.length ms ->
   fst (start req mon existing polls) = Return (Many (firstn (accum_results req) ms)) /\
   List.length (firstn (accum_results req) ms) = accum_results req) /\
  (List.length ms < accum_results req ->
   fst (start req mon existing polls) = Raise (TimeoutError (error_message req))).
Proof.
  intros Hn ms. pose proof (start_result M req mon existing polls) as H.
  cbv zeta in H. fold ms in H. rewrite H by lia.
  destruct (Nat.leb_spec (accum_results req) (List.length ms)) as [Hle|Hlt].
  - rewrite success_many by exact Hn.
    split; [split; [intros _; exact Hle | intros _; eexists; reflexivity]|].
    split.
    + intros _. split; [reflexivity|]. rewrite length_firstn. lia.
    + intros Hc. lia.
  - split; [split; [intros [r Hr]; discriminate | intros Hc; lia]|].
    split.
    + intros Hc. lia.
    + intros _. reflexivity.
Qed.

End Accumulation.

(** Concrete runs of the monitor, on the reference engine. *)

Section MonitorRuns.

Existing Instance mini_re.

Example make_callback_mini :
  make_callback "match-" (Some "") = Return (mini_callback "match-").
Proof. vm_compute. reflexivity. Qed.

(** The scenario of the specification: the lines a, b, match-1, c, match-2
    reach the source over three poll iterations; two matches are asked
    for. *)
Example start_scenario :
  start {| timeout := 5; callback := mini_callback "match-";
           update_position := true; accum_results := 2;
           error_message := "not found" |}
        (FileMonitor "/var/ossec/logs/ossec.log")
        ["a"] [["b"; "match-1"]; []; ["c"; "match-2"; "d"]]
  = (Return (Many [VMatch "match-1"; VMatch "match-2"]),
     {| source := FilePath "/var/ossec/logs/ossec.log"; last_read_offset := 5 |}).
Proof. vm_compute. reflexivity. Qed.

Example start_scenario_single :
  start {| timeout := 5; callback := mini_callback "match-";
           update_position := true; accum_results := 1;
           error_message := "not found" |}
        {| source := FilePath "/var/ossec/logs/ossec.log"; last_read_offset := 3 |}
        ["a"; "b"; "match-1"] [[]; ["c"; "match-2"; "d"]]
  = (Return (Single (VMatch "match-2")),
     {| source := FilePath "/var/ossec/logs/ossec.log"; last_read_offset := 5 |}).
Proof. vm_compute. reflexivity. Qed.

Example start_scenario_timeout :
  start {| timeout := 5; callback := mini_callback "match-";
           update_position := true; accum_results := 3;
           error_message := "not found" |}
        (FileMonitor "/var/ossec/logs/ossec.log")
        ["a"] [["b"; "match-1"]; []; ["c"; "match-2"; "d"]]
  = (Raise (TimeoutError "not found"), FileMonitor "/var/ossec/logs/ossec.log").
Proof. vm_compute. reflexivity. Qed.

Lemma monitor_timeout_is_raised_witness :
  let cb : Callback Match :=
    fun line => VBool (is_not_None (re_match (mini_regex ".*->1\.2\.3\.4\s+hello") line)) in
  let req :=
    {| timeout := 5; callback := cb; update_position := true;
       accum_results := 1;
       error_message := "Syslog message wasn't received or took too much time." |} in
  let mon := FileMonitor "/var/ossec/logs/archives/archives.log" in
  let existing := ["2021 Jan 01 00:00:00 manager->1.2.3.4 bye"] in
  let polls := [[]; ["2021 Jan 01 00:00:01 manager->1.2.3.4 again"]; []] in
  List.length (matches_of (callback req) (observed req mon existing polls))
  < accum_results req /\
  start req mon existing polls = (Raise (TimeoutError (error_message req)), mon) /\
  (accum_results req = default_accum_results ->
   detect_archives_log_event mon (callback req) (error_message req)
     (update_position req) (timeout req) existing polls
   = (Raise (TimeoutError (error_message req)), mon)) /\
  (forall file_monitor pattern prefix file_to_monitor,
      resolve_monitor file_monitor file_to_monitor = mon ->
      make_analysisd_callback pattern prefix = Return (callback req) ->
      check_analysisd_event file_monitor pattern (Some (error_message req))
        (update_position req) (timeout req) prefix (accum_results req)
        file_to_monitor existing polls
      = (Raise (TimeoutError (error_message req)), mon)).
Proof.
  intros cb req mon existing polls.
  assert (H : List.length (matches_of (callback req) (observed req mon existing polls))
              < accum_results req) by (vm_compute; lia).
  split; [exact H|].
  exact (@monitor_timeout_is_raised mini_re req mon existing polls H).
Defined.

Lemma start_accumulates_across_polls_witness :
  let req :=
    {| timeout := 5; callback := mini_callback "match-";
       update_position := true; accum_results := 2;
       error_message := "not found" |} in
  let mon := FileMonitor "/var/ossec/logs/ossec.log" in
  let existing := ["a"] in
  let polls := [["b"; "match-1"]; []; ["c"; "match-2"; "d"]] in
  1 < accum_results req /\
  let ms := matches_of (callback req) (observed req mon existing polls) in
  ((exists r, fst (start req mon existing polls) = Return r)
   <-> accum_results req <= List.length ms) /\
  (accum_results req <= List.length ms ->
   fst (start req mon existing polls) = Return (Many (firstn (accum_results req) ms)) /\
   List.length (firstn (accum_results req) ms) = accum_results req) /\
  (List.length ms < accum_results req ->
   fst (start req mon existing polls) = Raise (TimeoutError (error_message req))).
Proof.
  intros req mon existing polls.
  assert (H : 1 < accum_results req) by (vm_compute; lia).
  split; [exact H|].
  exact (@start_accumulates_across_polls string req mon existing polls H).
Defined.

Lemma start_twice_without_update_position_witness :
  let req :=
    {| timeout := REMOTED_GLOBAL_TIMEOUT; callback := mini_callback ".*New TCP connection";
       update_position := false; accum_results := 1;
       error_message := "" |} in
  let mon := {| source := FilePath "/var/ossec/logs/ossec.log"; last_read_offset := 2 |} in
  let existing := ["wazuh-remoted: New TCP connection at 127.0.0.1"; "other"; "more"] in
  update_position req = false /\
  let first := start req mon existing (repeat [] 3) in
  let second := start req (snd first) existing (repeat [] 1) in
  fst second = fst first /\ snd first = mon /\ snd second = mon /\
  fst first =
    match scan (callback req) (accum_results req) [] 0 existing with
    | (acc, _, true) => Return (success (accum_results req) acc)
    | (_, _, false) => Raise (TimeoutError (error_message req))
    end /\
  forall pattern message timeout,
    let first' :=
      check_remoted_log_event ".*wazuh-remoted.*" mon pattern message false
        timeout existing (repeat [] 3) in
    let second' :=
      check_remoted_log_event ".*wazuh-remoted.*" (snd first') pattern message
        false timeout existing (repeat [] 1) in
    fst second' = fst first' /\ snd first' = mon /\ snd second' = mon.
Proof.
  intros req mon existing.
  assert (H : update_position req = false) by reflexivity.
  split; [exact H|].
  exact (@start_twice_without_update_position mini_re ".*wazuh-remoted.*"
           req mon existing 2 0 H).
Defined.

Example start_twice_run :
  let req :=
    {| timeout := REMOTED_GLOBAL_TIMEOUT; callback := mini_callback ".*New TCP connection";
       update_position := false; accum_results := 1;
       error_message := "" |} in
  let mon := {| source := FilePath "/var/ossec/logs/ossec.log"; last_read_offset := 2 |} in
  let existing := ["wazuh-remoted: New TCP connection at 127.0.0.1"; "other"; "more"] in
  start req mon existing [[]; []]
  = (Return (Single (VMatch "wazuh-remoted: New TCP connection at 127.0.0.1")), mon).
Proof. vm_compute. reflexivity. Qed.

End MonitorRuns.

(** ** check_analysisd_event: the failure message *)

Section ContainsFacts.

Import PyStr.

Lemma is_prefix_append (p s : string) : is_prefix p (p ++ s) = true.
Proof.
  induction p as [|c p IH]; [reflexivity|].
  cbn. now rewrite Ascii.eqb_refl, IH.
Qed.

Lemma contains_append_l (sub a s : string) :
  contains sub s = true -> contains sub (a ++ s) = true.
Proof.
  intros H. induction a as [|c a IH]; [exact H|].
  cbn [append contains]. rewrite IH. apply orb_true_r.
Qed.

Lemma contains_here (sub s : string) : contains sub (sub ++ s) = true.
Proof.
  destruct (sub ++ s) eqn:E; cbn [contains]; rewrite <- E, is_prefix_append;
    reflexivity.
Qed.

Lemma contains_middle (sub a b : string) : contains sub (a ++ sub ++ b) = true.
Proof. apply contains_append_l, contains_here. Qed.

Lemma contains_end (sub a : string) : contains sub (a ++ sub) = true.
Proof.
  rewrite <- (append_empty_r sub) at 2. apply contains_middle.
Qed.

End ContainsFacts.

Section AnalysisdEvent.

Context {RE : ReModule}.

(** C8, as the code has it: a call of check_analysisd_event without
    error_message starts the monitor with the generated message "Could not
    find this event in <file_to_monitor>: <callback>", which names the
    file_to_monitor argument and the pattern; that argument is the file of
    the monitor when the caller passes no monitor of its own.  A call with
    an error_message starts the monitor with that message. *)
Theorem check_analysisd_event_message
        (file_monitor : option Monitor) (pattern : string)
        (message : option string) (update_position : bool) (timeout : nat)
        (prefix : option string) (accum_results : nat) (file_to_monitor : string)
        (mon : Monitor) (req : MonitorRequest Match) :
  check_analysisd_event_call file_monitor pattern message update_position
    timeout prefix accum_results file_to_monitor = Return (mon, req) ->
  (forall existing polls,
      check_analysisd_event file_monitor pattern message update_position
        timeout prefix accum_results file_to_monitor existing polls
      = (bind (fst (start req mon existing polls)) (fun _ => Return tt),
         snd (start req mon existing polls))) /\
  (file_monitor = None -> source mon = FilePath file_to_monitor) /\
  (message = None ->
   error_message req
   = "Could not find this event in " ++ file_to_monitor ++ ": " ++ pattern /\
   PyStr.contains file_to_monitor (error_message req) = true /\
   PyStr.contains pattern (error_message req) = true) /\
  (forall m, message = Some m -> error_message req = m).
Proof.
  intros H. split.
  - intros existing polls. unfold check_analysisd_event. rewrite H.
    now destruct (start req mon existing polls).
  - unfold check_analysisd_event_call in H.
    destruct (make_analysisd_callback pattern prefix) as [cb|e]; [|discriminate].
    cbn [bind] in H. injection H as <- <-. cbn [error_message]. split.
    + intros ->. reflexivity.
    + split.
      * intros ->. cbn [resolve_message]. split; [reflexivity|]. split.
        -- apply contains_middle.
        -- apply contains_append_l, contains_append_l, contains_end.
      * intros m ->. reflexivity.
Qed.

End AnalysisdEvent.

Section AnalysisdEventRuns.

Existing Instance mini_re.

Lemma check_analysisd_event_message_witness :
  let cb : Callback Match :=
    fun line =>
      VBool (is_not_None
               (re_match (mini_regex ".*wazuh-analysisd.*.*INFO:\s+EPS\s+limit\s+disabled.*")
                         line)) in
  let file := "/var/ossec/logs/ossec.log" in
  let pattern := ".*INFO: EPS limit disabled.*" in
  let mon := FileMonitor file in
  let req :=
    {| timeout := 10; callback := cb; update_position := true; accum_results := 1;
       error_message :=
         "Could not find this event in /var/ossec/logs/ossec.log: .*INFO: EPS limit disabled.*"
    |} in
  check_analysisd_event_call None pattern None true 10 (Some ".*wazuh-analysisd.*") 1 file
  = Return (mon, req) /\
  (forall existing polls,
      check_analysisd_event None pattern None true 10 (Some ".*wazuh-analysisd.*") 1
        file existing polls
      = (bind (fst (start req mon existing polls)) (fun _ => Return tt),
         snd (start req mon existing polls))) /\
  (@None Monitor = None -> source mon = FilePath file) /\
  (@None string = None ->
   error_message req = "Could not find this event in " ++ file ++ ": " ++ pattern /\
   PyStr.contains file (error_message req) = true /\
   PyStr.contains pattern (error_message req) = true) /\
  (forall m, None = Some m -> error_message req = m).
Proof.
  intros cb file pattern mon req.
  assert (H : check_analysisd_event_call None pattern None true 10
                (Some ".*wazuh-analysisd.*") 1 file = Return (mon, req))
    by (vm_compute; reflexivity).
  split; [exact H|].
  exact (@check_analysisd_event_message mini_re None pattern None true 10
           (Some ".*wazuh-analysisd.*") 1 file mon req H).
Defined.

(** C8 as stated fails for a caller that passes its own monitor on
    another file: the generated message names file_to_monitor, here
    ossec.log, and not the file the monitor reads, alerts.json. *)
Lemma check_analysisd_event_message_other_file_counterexample :
  let alerts := "/var/ossec/logs/alerts/alerts.json" in
  let file_to_monitor := "/var/ossec/logs/ossec.log" in
  let mon := FileMonitor alerts in
  let req : MonitorRequest Match :=
    {| timeout := 10;
       callback := fun line => VBool (is_not_None (re_match (mini_regex "x") line));
       update_position := true; accum_results := 1;
       error_message := "Could not find this event in /var/ossec/logs/ossec.log: x"
    |} in
  check_analysisd_event_call (Some mon) "x" None true 10 (Some "") 1 file_to_monitor
  = Return (mon, req) /\
  source mon = FilePath alerts /\
  source mon <> FilePath file_to_monitor /\
  PyStr.contains alerts (error_message req) = false /\
  PyStr.contains file_to_monitor (error_message req) = true /\
  check_analysisd_event (Some mon) "x" None true 10 (Some "") 1 file_to_monitor
    ["an alert"] [[]]
  = (Raise (TimeoutError "Could not find this event in /var/ossec/logs/ossec.log: x"),
     mon).
Proof.
  cbv zeta. split; [vm_compute; reflexivity|].
  split; [reflexivity|]. split; [discriminate|].
  split; [vm_compute; reflexivity|]. split; vm_compute; reflexivity.
Qed.

(** The event is in the log: [check_eps_disabled] returns; the log stays
    silent: it raises the generated message. *)
Example check_eps_disabled_found :
  fst (check_eps_disabled ".*wazuh-analysisd.*" "/var/ossec/logs/ossec.log" 10
         ["2022/01/01 10:00:00 wazuh-analysisd: INFO: EPS limit disabled"] [[]])
  = Return tt.
Proof. vm_compute. reflexivity. Qed.

Example check_eps_disabled_missing :
  fst (check_eps_disabled ".*wazuh-analysisd.*" "/var/ossec/logs/ossec.log" 10
         ["2022/01/01 10:00:00 wazuh-analysisd: INFO: started"] [[]; []])
  = Raise (TimeoutError
             "Could not find this event in /var/ossec/logs/ossec.log: .*INFO: EPS limit disabled.*").
Proof. vm_compute. reflexivity. Qed.

End AnalysisdEventRuns.

(** ** send_ping_pong_messages *)

Section PingPong.

Lemma upper_char_cases (c : ascii) (x : ascii) :
  PyStr.upper_char c = x ->
  c = x \/ (c = ascii_of_nat (PyStr.code x + 32) /\ 65 <= PyStr.code x <= 90).
Proof.
  unfold PyStr.upper_char.
  destruct ((97 <=? PyStr.code c) && (PyStr.code c <=? 122))%nat eqn:E.
  - intros <-. right.
    apply andb_true_iff in E. destruct E as [E1 E2].
    apply Nat.leb_le in E1. apply Nat.leb_le in E2.
    unfold PyStr.code in *. rewrite nat_ascii_embedding by lia.
    split; [|lia].
    replace (nat_of_ascii c - 32 + 32) with (nat_of_ascii c) by lia.
    now rewrite ascii_nat_embedding.
  - intros <-. now left.
Qed.

(** The comparison with UDP does not look at the case of the letters. *)
Lemma upper_is_UDP (protocol : string) :
  PyStr.upper protocol = UDP <->
  exists a b c,
    protocol = String a (String b (String c EmptyString)) /\
    (a = "U" \/ a = "u")%char /\ (b = "D" \/ b = "d")%char /\ (c = "P" \/ c = "p")%char.
Proof.
  split.
  - destruct protocol as [|a [|b [|c [|d rest]]]]; try discriminate.
    cbn [PyStr.upper]. unfold UDP. intros H. injection H as Ha Hb Hc.
    exists a, b, c. split; [reflexivity|].
    apply upper_char_cases in Ha, Hb, Hc.
    repeat split.
    + destruct Ha as [->|[-> _]]; [now left | now right].
    + destruct Hb as [->|[-> _]]; [now left | now right].
    + destruct Hc as [->|[-> _]]; [now left | now right].
  - intros [a [b [c [-> [Ha [Hb Hc]]]]]].
    destruct Ha as [->| ->], Hb as [->| ->], Hc as [->| ->]; reflexivity.
Qed.

Lemma length_last_bytes (k : nat) (b : list byte) :
  List.length (last_bytes k b) = Nat.min k (List.length b).
Proof. unfold last_bytes. rewrite length_skipn. lia. Qed.

(** C10: when the connection is accepted, a protocol that is UDP up to the
    case of its letters sends the five bytes of #ping and returns what the
    socket received; any other protocol sends the four bytes of 5 in
    little-endian order followed by the bytes of #ping and returns the last
    five bytes of what the socket received. *)
Theorem send_ping_pong_messages_bytes
        (protocol manager_address : string) (port : nat) (peer : Peer) :
  refuses peer = false ->
  let ping := [x23; x70; x69; x6e; x67] in
  let framed := ([x05; x00; x00; x00] ++ ping)%list in
  ping = PyStr.encode "#ping" /\
  (PyStr.upper protocol = UDP ->
   send_ping_pong_messages protocol manager_address port peer
   = (Return (reply peer ping 5),
      [Socket SOCK_DGRAM; Connect manager_address port; Send ping; Recv 5; Close])) /\
  (PyStr.upper protocol <> UDP ->
   let response := reply peer framed 9 in
   send_ping_pong_messages protocol manager_address port peer
   = (Return (skipn (List.length response - 5) response),
      [Socket SOCK_STREAM; Connect manager_address port; Send framed; Recv 9; Close]) /\
   List.length (skipn (List.length response - 5) response)
   = Nat.min 5 (List.length response)).
Proof.
  intros Hacc ping framed. split; [reflexivity|]. split.
  - intros H. unfold send_ping_pong_messages. rewrite H.
    cbn [String.eqb]. unfold UDP. rewrite String.eqb_refl, Hacc. reflexivity.
  - intros H response. apply String.eqb_neq in H.
    unfold send_ping_pong_messages. rewrite H, Hacc. split; [reflexivity|].
    apply (length_last_bytes 5).
Qed.

Lemma send_ping_pong_messages_bytes_witness :
  let pong := [x05; x00; x00; x00; x23; x70; x6f; x6e; x67] in
  let peer := {| refuses := false; reply := fun _ bufsize => firstn bufsize pong |} in
  refuses peer = false /\
  let ping := [x23; x70; x69; x6e; x67] in
  let framed := ([x05; x00; x00; x00] ++ ping)%list in
  ping = PyStr.encode "#ping" /\
  (PyStr.upper "tcp" = UDP ->
   send_ping_pong_messages "tcp" "127.0.0.1" 1514 peer
   = (Return (reply peer ping 5),
      [Socket SOCK_DGRAM; Connect "127.0.0.1" 1514; Send ping; Recv 5; Close])) /\
  (PyStr.upper "tcp" <> UDP ->
   let response := reply peer framed 9 in
   send_ping_pong_messages "tcp" "127.0.0.1" 1514 peer
   = (Return (skipn (List.length response - 5) response),
      [Socket SOCK_STREAM; Connect "127.0.0.1" 1514; Send framed; Recv 9; Close]) /\
   List.length (skipn (List.length response - 5) response)
   = Nat.min 5 (List.length response)).
Proof.
  intros pong peer.
  assert (H : refuses peer = false) by reflexivity.
  split; [exact H|].
  exact (send_ping_pong_messages_bytes "tcp" "127.0.0.1" 1514 peer H).
Defined.

Example send_ping_pong_tcp :
  let pong := [x05; x00; x00; x00; x23; x70; x6f; x6e; x67] in
  let peer := {| refuses := false; reply := fun _ bufsize => firstn bufsize pong |} in
  fst (send_ping_pong_messages "tcp" "127.0.0.1" 1514 peer)
  = Return (PyStr.encode "#pong").
Proof. vm_compute. reflexivity. Qed.

Example send_ping_pong_udp :
  let peer := {| refuses := false;
                 reply := fun _ bufsize => firstn bufsize (PyStr.encode "#pong") |} in
  send_ping_pong_messages "Udp" "127.0.0.1" 1514 peer
  = (Return (PyStr.encode "#pong"),
     [Socket SOCK_DGRAM; Connect "127.0.0.1" 1514; Send (PyStr.encode "#ping");
      Recv 5; Close]).
Proof. vm_compute. reflexivity. Qed.

Example send_ping_pong_refused :
  send_ping_pong_messages "udp" "127.0.0.1" 1514
    {| refuses := true; reply := fun _ _ => [] |}
  = (Raise ConnectionRefusedError,
     [Socket SOCK_DGRAM; Connect "127.0.0.1" 1514; Send (PyStr.encode "#ping"); Recv 5]).
Proof. vm_compute. reflexivity. Qed.

Example send_ping_pong_refused_tcp :
  send_ping_pong_messages "tcp" "127.0.0.1" 1514
    {| refuses := true; reply := fun _ _ => [] |}
  = (Raise ConnectionRefusedError, [Socket SOCK_STREAM; Connect "127.0.0.1" 1514]).
Proof. vm_compute. reflexivity. Qed.

End PingPong.

(** ** check_queue_socket_event: the clean-up *)

Section QueueSocket.

Context {RE : ReModule}.

Lemma map_map_id (polls : list (list string)) :
  map (map (fun data : string => data)) polls = polls.
Proof.
  induction polls as [|b rest IH]; [reflexivity|].
  cbn [map]. now rewrite map_id, IH.
Qed.

(** C7: whatever the monitoring of the queue gives, a Success or the
    TimedOut failure, check_queue_socket_event shuts the interceptor down
    (listening socket closed, loop stopped) and starts wazuh-analysisd
    again, in that order and after the monitor has run, and then returns or
    raises what the monitor gave. *)
Theorem check_queue_socket_event_cleans_up
        (QUEUE_SOCKETS_PATH raw_event : string) (timeout : nat)
        (polls : list (list string)) (w : World) (cb : Callback Match) :
  make_callback raw_event (Some ".*") = Return cb ->
  let path := QUEUE_SOCKET_PATH QUEUE_SOCKETS_PATH in
  let message := "Could not find the expected event in queue socket" in
  let monitoring :=
    fst (start {| timeout := timeout; callback := cb; error_message := message;
                  update_position := false;
                  accum_results := default_accum_results |}
               (QueueMonitor "mitm.queue") [] polls) in
  let result := check_queue_socket_event QUEUE_SOCKETS_PATH raw_event timeout polls w in
  fst result = bind monitoring (fun _ => Return tt) /\
  (fst result = Return tt \/ fst result = Raise (TimeoutError message)) /\
  calls (snd result)
  = (calls w ++
     [ControlService "stop" "wazuh-analysisd";
      BindUnixSocket path UDP;
      MitmStart path "AF_UNIX" UDP;
      MonitorStart timeout message false;
      MitmShutdown;
      ControlService "start" "wazuh-analysisd"])%list /\
  mitm_listening (snd result) = false /\
  mitm_loop_running (snd result) = false /\
  analysisd_running (snd result) = true.
Proof.
  intros Hcb path message monitoring result.
  subst result. unfold check_queue_socket_event. rewrite Hcb.
  unfold wbind, wlift, try_finally, socket_monitor_start, wret.
  cbn [control_service bind_unix_socket mitm_start mitm_shutdown wret
       record calls mitm_listening mitm_loop_running analysisd_running
       String.eqb Ascii.eqb Bool.eqb fst snd].
  rewrite map_map_id. cbn [Monitoring.timeout error_message update_position].
  fold path. fold message. fold monitoring.
  assert (Hmon : (exists r, monitoring = Return r)
                 \/ monitoring = Raise (TimeoutError message)).
  { subst monitoring. unfold start. cbn [update_position callback accum_results error_message].
    destruct (poll_loop cb default_accum_results [] [] 0 polls) as [[acc pos]|];
      cbn [fst]; [left; eexists; reflexivity | right; reflexivity]. }
  destruct Hmon as [[r Hr] | Hr]; rewrite Hr; cbn [fst snd bind calls record
       mitm_listening mitm_loop_running analysisd_running].
  - split; [reflexivity|]. split; [now left|].
    rewrite <- !app_assoc. cbn [app]. repeat split.
  - split; [reflexivity|]. split; [now right|].
    rewrite <- !app_assoc. cbn [app]. repeat split.
Qed.

End QueueSocket.

Section QueueSocketRuns.

Existing Instance mini_re.

Example check_queue_socket_event_found :
  check_queue_socket_event "/var/ossec/queue/sockets" EXAMPLE_MESSAGE_PATTERN 30
    [[]; ["1:/root/test.log:Feb 23 sshd: Accepted publickey for root from 192.168.0.5 port 48044 ssh2"]]
    quiet_world
  = (Return tt,
     {| analysisd_running := true; mitm_listening := false;
        mitm_loop_running := false;
        calls :=
          [ControlService "stop" "wazuh-analysisd";
           BindUnixSocket "/var/ossec/queue/sockets/queue" "UDP";
           MitmStart "/var/ossec/queue/sockets/queue" "AF_UNIX" "UDP";
           MonitorStart 30 "Could not find the expected event in queue socket" false;
           MitmShutdown;
           ControlService "start" "wazuh-analysisd"] |}).
Proof. vm_compute. reflexivity. Qed.

Example check_queue_socket_event_timed_out :
  check_queue_socket_event "/var/ossec/queue/sockets" EXAMPLE_MESSAGE_PATTERN 30
    [[]; ["1:/root/test.log:Feb 23 sshd: session closed"]; []]
    quiet_world
  = (Raise (TimeoutError "Could not find the expected event in queue socket"),
     {| analysisd_running := true; mitm_listening := false;
        mitm_loop_running := false;
        calls :=
          [ControlService "stop" "wazuh-analysisd";
           BindUnixSocket "/var/ossec/queue/sockets/queue" "UDP";
           MitmStart "/var/ossec/queue/sockets/queue" "AF_UNIX" "UDP";
           MonitorStart 30 "Could not find the expected event in queue socket" false;
           MitmShutdown;
           ControlService "start" "wazuh-analysisd"] |}).
Proof. vm_compute. reflexivity. Qed.

Lemma check_queue_socket_event_cleans_up_witness :
  let raw_event := EXAMPLE_MESSAGE_PATTERN in
  let cb := mini_callback (".*" ++ collapse_whitespace raw_event) in
  let polls := [[]; ["1:/root/test.log:Feb 23 sshd: session closed"]; []] in
  let w := quiet_world in
  make_callback raw_event (Some ".*") = Return cb /\
  let path := QUEUE_SOCKET_PATH "/var/ossec/queue/sockets" in
  let message := "Could not find the expected event in queue socket" in
  let monitoring :=
    fst (start {| timeout := 30; callback := cb; error_message := message;
                  update_position := false;
                  accum_results := default_accum_results |}
               (QueueMonitor "mitm.queue") [] polls) in
  let result := check_queue_socket_event "/var/ossec/queue/sockets" raw_event 30 polls w in
  fst result = bind monitoring (fun _ => Return tt) /\
  (fst result = Return tt \/ fst result = Raise (TimeoutError message)) /\
  calls (snd result)
  = (calls w ++
     [ControlService "stop" "wazuh-analysisd";
      BindUnixSocket path UDP;
      MitmStart path "AF_UNIX" UDP;
      MonitorStart 30 message false;
      MitmShutdown;
      ControlService "start" "wazuh-analysisd"])%list /\
  mitm_listening (snd result) = false /\
  mitm_loop_running (snd result) = false /\
  analysisd_running (snd result) = true.
Proof.
  intros raw_event cb polls w.
  assert (H : make_callback raw_event (Some ".*") = Return cb)
    by (vm_compute; reflexivity).
  split; [exact H|].
  exact (@check_queue_socket_event_cleans_up mini_re "/var/ossec/queue/sockets"
           raw_event 30 polls w cb H).
Defined.

End QueueSocketRuns.

(** ** get_analysisd_state *)

Section AnalysisdStateRuns.

Import PyText AnalysisdState.

Example get_analysisd_state_run :
  get_analysisd_state
    (Some "# State file for wazuh-analysisd

# Total events decoded
total_events_decoded='12'

# Syscheck events decoded
syscheck_events_decoded = '0'
")
  = Ok [("total_events_decoded", "12"); ("syscheck_events_decoded", "0")].
Proof. vm_compute. reflexivity. Qed.

End AnalysisdStateRuns.

(** ** Facts on the text primitives *)

Section TextFacts.

Import PyText.

Lemma has_char_append (c : ascii) (a b : string) :
  has_char c (a ++ b) = has_char c a || has_char c b.
Proof.
  induction a as [|d a IH]; [reflexivity|].
  cbn [append has_char]. rewrite IH. now rewrite orb_assoc.
Qed.

Lemma concat_cons (x : string) (xs : list string) :
  String.concat "" (x :: xs) = x ++ String.concat "" xs.
Proof.
  destruct xs as [|y ys]; cbn [String.concat].
  - now rewrite append_empty_r.
  - reflexivity.
Qed.

Lemma split_lines_nonempty (a b : string) :
  split_lines (a ++ String newline b) <> [].
Proof.
  induction a as [|c a IH]; cbn [append split_lines].
  - rewrite Ascii.eqb_refl. discriminate.
  - destruct (Ascii.eqb c newline); [discriminate|].
    destruct (split_lines (a ++ String newline b)); discriminate.
Qed.

(** A text that ends with a newline is read line by line: what follows it
    starts a line of its own. *)
Lemma split_lines_app_newline (a b : string) :
  split_lines (a ++ String newline b)
  = (split_lines (a ++ String newline "") ++ split_lines b)%list.
Proof.
  induction a as [|c a IH]; cbn [append split_lines].
  - rewrite Ascii.eqb_refl. reflexivity.
  - destruct (Ascii.eqb c newline).
    + rewrite IH. reflexivity.
    + rewrite IH.
      pose proof (split_lines_nonempty a "") as Hne.
      destruct (split_lines (a ++ String newline "")) as [|l ls]; [congruence|].
      reflexivity.
Qed.

Lemma split_lines_one_line (body : string) :
  has_char newline body = false ->
  split_lines (body ++ String newline "") = [body ++ String newline ""].
Proof.
  induction body as [|c body IH]; cbn [append split_lines has_char].
  - intros _. rewrite Ascii.eqb_refl. reflexivity.
  - intros H. apply orb_false_iff in H. destruct H as [Hc Hb].
    rewrite Hc, (IH Hb). reflexivity.
Qed.

Lemma split_lines_line (body rest : string) :
  has_char newline body = false ->
  split_lines (body ++ String newline rest)
  = (body ++ String newline "") :: split_lines rest.
Proof.
  intros H. rewrite split_lines_app_newline, (split_lines_one_line body H).
  reflexivity.
Qed.

Lemma endswith_newline_inv (s : string) :
  endswith s (String newline "") = true ->
  exists a, s = a ++ String newline "".
Proof.
  induction s as [|c s IH]; cbn [endswith].
  - cbn. discriminate.
  - intros H. apply orb_true_iff in H. destruct H as [H|H].
    + apply String.eqb_eq in H. exists "". now rewrite H.
    + destruct (IH H) as [a ->]. now exists (String c a).
Qed.

Lemma endswith_append (a suffix : string) : endswith (a ++ suffix) suffix = true.
Proof.
  induction a as [|c a IH].
  - cbn [append]. destruct suffix; cbn [endswith]; now rewrite String.eqb_refl.
  - cbn [append endswith]. rewrite IH. apply orb_true_r.
Qed.

Lemma split_on_nonempty (sep : ascii) (s : string) : split_on sep s <> [].
Proof.
  destruct s as [|c s]; cbn [split_on]; [discriminate|].
  destruct (Ascii.eqb c sep); [discriminate|].
  destruct (split_on sep s); discriminate.
Qed.

Lemma split_on_none (sep : ascii) (s : string) :
  has_char sep s = false -> split_on sep s = [s].
Proof.
  induction s as [|c s IH]; cbn [split_on has_char]; [reflexivity|].
  intros H. apply orb_false_iff in H. destruct H as [Hc Hs].
  rewrite Hc, (IH Hs). reflexivity.
Qed.

Lemma split_on_piece (sep : ascii) (x rest : string) :
  has_char sep x = false ->
  split_on sep (x ++ String sep rest) = x :: split_on sep rest.
Proof.
  induction x as [|c x IH]; cbn [append split_on has_char].
  - intros _. now rewrite Ascii.eqb_refl.
  - intros H. apply orb_false_iff in H. destruct H as [Hc Hx].
    rewrite Hc, (IH Hx). reflexivity.
Qed.

Lemma drop_last_append (a b : string) :
  b <> "" -> drop_last (a ++ b) = a ++ drop_last b.
Proof.
  intros Hb. induction a as [|c a IH]; [reflexivity|].
  cbn [append].
  assert (Hne : a ++ b <> "") by (destruct a; cbn; [exact Hb | discriminate]).
  rewrite <- IH. destruct (a ++ b) as [|d r]; [congruence|]. reflexivity.
Qed.

Lemma replace_char_append (old : ascii) (new a b : string) :
  replace_char old new (a ++ b) = replace_char old new a ++ replace_char old new b.
Proof.
  induction a as [|c a IH]; [reflexivity|].
  cbn [append replace_char]. destruct (Ascii.eqb c old).
  - now rewrite IH, append_assoc.
  - now rewrite IH.
Qed.

Lemma replace_char_absent (old : ascii) (new s : string) :
  has_char old s = false -> replace_char old new s = s.
Proof.
  induction s as [|c s IH]; cbn [replace_char has_char]; [reflexivity|].
  intros H. apply orb_false_iff in H. destruct H as [Hc Hs].
  now rewrite Hc, (IH Hs).
Qed.

Lemma text_mode_clean (s : string) :
  has_char carriage_return s = false -> text_mode s = s.
Proof.
  induction s as [|c s IH]; [reflexivity|].
  cbn [has_char text_mode]. intros H. apply orb_false_iff in H.
  destruct H as [Hc Hs]. now rewrite Hc, (IH Hs).
Qed.



Lemma text_mode_crlf (a : string) :
  has_char carriage_return a = false ->
  text_mode (a ++ String carriage_return (String newline ""))
  = a ++ String newline "".
Proof.
  induction a as [|c a IH]; [reflexivity|].
  cbn [has_char append text_mode]. intros H. apply orb_false_iff in H.
  destruct H as [Hc Ha]. now rewrite Hc, (IH Ha).
Qed.

End TextFacts.

(** ** get_analysisd_state: comments, empty files, round trip *)

Section AnalysisdStateFacts.

Import PyText AnalysisdState.

Let step (data line : string) : string :=
  if kept line then data ++ replace_char quote "" line else data.

Lemma fold_step_acc (lines : list string) :
  forall acc, fold_left step lines acc = acc ++ fold_left step lines "".
Proof.
  induction lines as [|l ls IH]; intros acc; cbn [fold_left].
  - now rewrite append_empty_r.
  - rewrite (IH (step acc l)), (IH (step "" l)). unfold step.
    destruct (kept l); cbn [append].
    + now rewrite append_assoc.
    + reflexivity.
Qed.

Lemma state_data_cons (l : string) (ls : list string) :
  state_data (l :: ls)
  = (if kept l then replace_char quote "" l else "") ++ state_data ls.
Proof.
  unfold state_data. cbn [fold_left]. fold step.
  rewrite fold_step_acc. unfold step at 2. cbn [append].
  destruct (kept l); reflexivity.
Qed.

Lemma state_data_app (l1 l2 : list string) :
  state_data (l1 ++ l2) = state_data l1 ++ state_data l2.
Proof.
  induction l1 as [|l ls IH]; [reflexivity|].
  cbn [app]. rewrite !state_data_cons, IH. now rewrite append_assoc.
Qed.

Lemma kept_comment (comment : string) :
  comment = "" \/ PyStr.is_prefix "#" comment = true ->
  kept (comment ++ String newline "") = false.
Proof.
  intros [-> | H].
  - reflexivity.
  - destruct comment as [|c comment]; [discriminate|].
    unfold kept. cbn [append PyStr.is_prefix] in *. rewrite H. reflexivity.
Qed.

(** A comment line or a blank line changes nothing: the state read from a
    file with such a line, at the start of the file or after a full line,
    is the state read from the file without it.  The file has newlines as
    its only line ends. *)
Theorem get_analysisd_state_skips_comments (before comment after : string) :
  before = "" \/ endswith before (String newline "") = true ->
  has_char newline comment = false ->
  has_char carriage_return (before ++ comment ++ after) = false ->
  comment = "" \/ PyStr.is_prefix "#" comment = true ->
  get_analysisd_state (Some (before ++ comment ++ String newline after))
  = get_analysisd_state (Some (before ++ after)).
Proof.
  intros Hbefore Hnl Hcr Hc. unfold get_analysisd_state, readlines.
  rewrite !has_char_append in Hcr.
  apply orb_false_iff in Hcr. destruct Hcr as [Hcr1 Hcr].
  apply orb_false_iff in Hcr. destruct Hcr as [Hcr2 Hcr3].
  rewrite (text_mode_clean (before ++ comment ++ String newline after)).
  2: { rewrite !has_char_append. cbn [has_char].
       rewrite Hcr1, Hcr2, Hcr3. reflexivity. }
  rewrite (text_mode_clean (before ++ after)).
  2: { rewrite has_char_append, Hcr1, Hcr3. reflexivity. }
  assert (E : state_data (split_lines (before ++ comment ++ String newline after))
              = state_data (split_lines (before ++ after))).
  { destruct Hbefore as [-> | H].
    - cbn [append]. rewrite (split_lines_line comment after Hnl), state_data_cons.
      now rewrite (kept_comment comment Hc).
    - destruct (endswith_newline_inv before H) as [a ->].
      rewrite !append_assoc. cbn [append].
      rewrite (split_lines_app_newline a (comment ++ String newline after)).
      rewrite (split_lines_app_newline a after).
      rewrite !state_data_app. f_equal.
      rewrite (split_lines_line comment after Hnl), state_data_cons.
      now rewrite (kept_comment comment Hc). }
  now rewrite E.
Qed.

(** A file in which every line, as read in text mode, is a comment or a
    blank line, an empty file included, makes get_analysisd_state raise
    ValueError. *)
Theorem get_analysisd_state_nothing_kept (raw : string) :
  (forall line, In line (readlines raw) -> kept line = false) ->
  get_analysisd_state (Some raw) = Err ValueError.
Proof.
  intros H. unfold get_analysisd_state.
  assert (E : state_data (readlines raw) = "").
  { induction (readlines raw) as [|l ls IH]; [reflexivity|].
    rewrite state_data_cons, (H l (or_introl eq_refl)). cbn [append].
    apply IH. intros line Hin. apply H. now right. }
  rewrite E. reflexivity.
Qed.

Let bare (kv : string * string) : string := fst kv ++ String "=" (snd kv).

Let quoted (kv : string * string) : string := fst kv ++ "='" ++ snd kv ++ "'".

Lemma state_line_quoted (kv : string * string) :
  state_line kv = quoted kv ++ String newline "".
Proof. unfold state_line, quoted. now rewrite !append_assoc. Qed.

Lemma state_file_cons (kv : string * string) (kvs : list (string * string)) :
  state_file (kv :: kvs) = quoted kv ++ String newline (state_file kvs).
Proof.
  unfold state_file. cbn [map]. rewrite concat_cons, state_line_quoted.
  now rewrite append_assoc.
Qed.

Lemma quoted_one_line (kv : string * string) :
  entry_ok kv -> has_char newline (quoted kv) = false.
Proof.
  intros [[Hk _] [[Hv _] _]]. unfold quoted.
  rewrite !has_char_append, Hk, Hv. reflexivity.
Qed.

Lemma state_line_read (kvs : list (string * string)) :
  Forall entry_ok kvs ->
  split_lines (state_file kvs) = map state_line kvs.
Proof.
  induction 1 as [|kv kvs Hkv _ IH]; [reflexivity|].
  rewrite state_file_cons, (split_lines_line _ _ (quoted_one_line kv Hkv)), IH.
  cbn [map]. now rewrite state_line_quoted.
Qed.

Lemma kept_state_line (kv : string * string) :
  entry_ok kv -> kept (state_line kv) = true.
Proof.
  intros [[Hk _] [_ Hhash]]. unfold kept, state_line.
  destruct (fst kv) as [|c k]; [reflexivity|].
  cbn [append PyStr.is_prefix has_char] in *.
  apply orb_false_iff in Hk. destruct Hk as [Hc _].
  rewrite Hhash. cbn [negb andb].
  rewrite Ascii.eqb_sym, Hc. reflexivity.
Qed.

Lemma state_line_unquoted (kv : string * string) :
  entry_ok kv ->
  replace_char quote "" (state_line kv) = bare kv ++ String newline "".
Proof.
  intros [[_ [_ [Hk _]]] [[_ [_ [Hv _]]] _]]. unfold state_line, bare.
  rewrite !replace_char_append.
  rewrite (replace_char_absent _ _ _ Hk), (replace_char_absent _ _ _ Hv).
  cbn. now rewrite append_assoc.
Qed.

Lemma state_data_lines (kvs : list (string * string)) :
  Forall entry_ok kvs ->
  state_data (map state_line kvs)
  = String.concat "" (map (fun kv => bare kv ++ String newline "") kvs).
Proof.
  induction 1 as [|kv kvs Hkv _ IH]; [reflexivity|].
  cbn [map]. rewrite state_data_cons, concat_cons, IH.
  now rewrite (kept_state_line kv Hkv), (state_line_unquoted kv Hkv).
Qed.

(** Lines written one after the other, each with its newline, come back
    from [data[:-1].split(newline)]. *)
Lemma lines_back (xs : list string) :
  xs <> [] ->
  Forall (fun x => has_char newline x = false) xs ->
  split_on newline
    (drop_last (String.concat "" (map (fun x => x ++ String newline "") xs)))
  = xs.
Proof.
  intros Hne H. induction H as [|x xs Hx Hxs IH]; [congruence|].
  cbn [map]. rewrite concat_cons.
  destruct xs as [|y ys].
  - cbn [map String.concat]. rewrite append_empty_r.
    rewrite drop_last_append by discriminate. cbn [drop_last].
    rewrite append_empty_r. now apply split_on_none.
  - rewrite append_assoc. cbn [append].
    set (rest := String.concat "" (map (fun x => x ++ String newline "") (y :: ys))) in *.
    assert (Hrest : rest <> "").
    { subst rest. cbn [map]. rewrite concat_cons.
      destruct y; cbn; discriminate. }
    replace (String newline rest) with (String newline "" ++ rest) by reflexivity.
    rewrite <- append_assoc, drop_last_append by exact Hrest.
    rewrite append_assoc. cbn [append].
    rewrite (split_on_piece newline x _ Hx), IH by discriminate. reflexivity.
Qed.

Lemma key_value_bare (kv : string * string) :
  entry_ok kv -> key_value (bare kv) = Ok kv.
Proof.
  intros [[_ [Hk [_ [Hks _]]]] [[_ [Hv [_ [Hvs _]]]] _]]. unfold key_value, bare.
  rewrite (split_on_piece "=" _ _ Hk), (split_on_none "=" _ Hv).
  rewrite Hks, Hvs. now destruct kv.
Qed.

Lemma key_values_bare (kvs : list (string * string)) :
  Forall entry_ok kvs -> key_values (map bare kvs) = Ok kvs.
Proof.
  induction 1 as [|kv kvs Hkv _ IH]; [reflexivity|].
  cbn [map key_values]. now rewrite (key_value_bare kv Hkv), IH.
Qed.

Lemma bare_one_line (kv : string * string) :
  entry_ok kv -> has_char newline (bare kv) = false.
Proof.
  intros [[Hk _] [[Hv _] _]]. unfold bare.
  rewrite has_char_append. cbn [has_char]. rewrite Hk, Hv. reflexivity.
Qed.

Lemma dict_set_fresh (V : Type) (k : string) (v : V) (d : list (string * V)) :
  ~ In k (map fst d) -> dict_set k v d = (d ++ [(k, v)])%list.
Proof.
  induction d as [|[k' v'] d IH]; [reflexivity|].
  cbn [map fst In dict_set app]. intros H.
  destruct (String.eqb_spec k' k) as [->|Hne].
  - exfalso. apply H. now left.
  - rewrite IH; [reflexivity|]. intros Hin. apply H. now right.
Qed.

Lemma dict_of_pairs_distinct (V : Type) (kvs : list (string * V)) :
  NoDup (map fst kvs) -> dict_of_pairs kvs = kvs.
Proof.
  unfold dict_of_pairs.
  assert (G : forall d : list (string * V),
             NoDup (map fst (d ++ kvs)) ->
             fold_left (fun d kv => dict_set (fst kv) (snd kv) d) kvs d
             = (d ++ kvs)%list).
  { induction kvs as [|[k v] kvs IH]; intros d Hd; cbn [fold_left].
    - now rewrite app_nil_r.
    - cbn [fst snd]. rewrite dict_set_fresh.
      + rewrite IH.
        * now rewrite <- app_assoc.
        * rewrite <- app_assoc. exact Hd.
      + rewrite map_app in Hd. cbn [map fst] in Hd.
        apply NoDup_remove_2 in Hd. intros Hin. apply Hd.
        apply in_or_app. now left. }
  intros H. exact (G [] H).
Qed.

Lemma state_file_no_carriage_return (kvs : list (string * string)) :
  Forall entry_ok kvs -> has_char carriage_return (state_file kvs) = false.
Proof.
  induction 1 as [|kv kvs Hkv _ IH]; [reflexivity|].
  destruct Hkv as [[_ [_ [_ [_ Hk]]]] [[_ [_ [_ [_ Hv]]]] _]].
  rewrite state_file_cons. unfold quoted.
  rewrite !has_char_append. cbn [has_char].
  unfold carriage_return in *. rewrite Hk, Hv, IH. reflexivity.
Qed.

(** Round trip: a state file written as [key='value'] lines, with at least
    one entry and plain keys and values, is read back as the dictionary of
    its entries; when no key is written twice that is the list of entries
    itself, in the order written. *)
Theorem get_analysisd_state_reads_back (kvs : list (string * string)) :
  kvs <> [] ->
  Forall entry_ok kvs ->
  get_analysisd_state (Some (state_file kvs)) = Ok (dict_of_pairs kvs) /\
  (NoDup (map fst kvs) -> get_analysisd_state (Some (state_file kvs)) = Ok kvs).
Proof.
  intros Hne Hok.
  assert (E : get_analysisd_state (Some (state_file kvs)) = Ok (dict_of_pairs kvs)).
  { unfold get_analysisd_state, readlines.
    rewrite (text_mode_clean _ (state_file_no_carriage_return kvs Hok)).
    rewrite (state_line_read kvs Hok), (state_data_lines kvs Hok).
    rewrite <- (map_map bare (fun x => x ++ String newline "")).
    rewrite lines_back.
    - now rewrite (key_values_bare kvs Hok).
    - destruct kvs; [congruence | discriminate].
    - apply Forall_map. eapply Forall_impl; [|exact Hok].
      intros kv. apply bare_one_line. }
  split; [exact E|].
  intros Hnd. now rewrite E, (dict_of_pairs_distinct _ kvs Hnd).
Qed.

End AnalysisdStateFacts.

Section AnalysisdStateWitnesses.

Import PyText AnalysisdState.

Lemma get_analysisd_state_skips_comments_witness :
  let before := "total_events_decoded='12'
" in
  let comment := "# Syscheck events decoded" in
  let after := "syscheck_events_decoded='0'
" in
  (before = "" \/ endswith before (String newline "") = true) /\
  has_char newline comment = false /\
  has_char carriage_return (before ++ comment ++ after) = false /\
  (comment = "" \/ PyStr.is_prefix "#" comment = true) /\
  get_analysisd_state (Some (before ++ comment ++ String newline after))
  = get_analysisd_state (Some (before ++ after)).
Proof.
  intros before comment after.
  assert (H1 : before = "" \/ endswith before (String newline "") = true)
    by (right; vm_compute; reflexivity).
  assert (H2 : has_char newline comment = false) by (vm_compute; reflexivity).
  assert (H3 : has_char carriage_return (before ++ comment ++ after) = false)
    by (vm_compute; reflexivity).
  assert (H4 : comment = "" \/ PyStr.is_prefix "#" comment = true)
    by (right; vm_compute; reflexivity).
  split; [exact H1|]. split; [exact H2|]. split; [exact H3|]. split; [exact H4|].
  exact (get_analysisd_state_skips_comments before comment after H1 H2 H3 H4).
Defined.

Lemma get_analysisd_state_nothing_kept_witness :
  let raw := "# State file for wazuh-analysisd

" in
  (forall line, In line (readlines raw) -> kept line = false) /\
  get_analysisd_state (Some raw) = Err ValueError.
Proof.
  intros raw.
  assert (H : forall line, In line (readlines raw) -> kept line = false).
  { intros line Hin. vm_compute in Hin.
    destruct Hin as [<- | [<- | []]]; vm_compute; reflexivity. }
  split; [exact H|].
  exact (get_analysisd_state_nothing_kept raw H).
Defined.

(** A carriage return ends a line when the file is read: the comment does
    not hide the entry after it. *)
Example get_analysisd_state_carriage_return :
  get_analysisd_state
    (Some ("# note" ++ String carriage_return "a='1'" ++ String newline ""))
  = Ok [("a", "1")].
Proof. vm_compute. reflexivity. Qed.

Example get_analysisd_state_crlf :
  get_analysisd_state
    (Some ("a='1'" ++ String carriage_return (String newline "")
           ++ "b='2'" ++ String carriage_return (String newline "")))
  = Ok [("a", "1"); ("b", "2")].
Proof. vm_compute. reflexivity. Qed.

Lemma get_analysisd_state_reads_back_witness :
  let kvs := [("total_events_decoded", "12"); ("syscheck_events_decoded", "0")] in
  kvs <> [] /\
  Forall entry_ok kvs /\
  get_analysisd_state (Some (state_file kvs)) = Ok (dict_of_pairs kvs) /\
  (NoDup (map fst kvs) -> get_analysisd_state (Some (state_file kvs)) = Ok kvs).
Proof.
  intros kvs.
  assert (H1 : kvs <> []) by discriminate.
  assert (H2 : Forall entry_ok kvs).
  { repeat constructor; vm_compute; reflexivity. }
  split; [exact H1|]. split; [exact H2|].
  exact (get_analysisd_state_reads_back kvs H1 H2).
Defined.

(** The last line of the file has no newline: its last character is
    lost. *)
Example get_analysisd_state_no_final_newline :
  get_analysisd_state (Some "total_events_decoded='12'
syscheck_events_decoded=345")
  = Ok [("total_events_decoded", "12"); ("syscheck_events_decoded", "34")].
Proof. vm_compute. reflexivity. Qed.

Example get_analysisd_state_two_signs :
  get_analysisd_state (Some "a='b=c'
") = Err ValueError.
Proof. vm_compute. reflexivity. Qed.

Example get_analysisd_state_missing : get_analysisd_state None = Err FileNotFoundError.
Proof. reflexivity. Qed.

Example get_analysisd_state_twice :
  get_analysisd_state (Some "a='1'
b='2'
a='3'
") = Ok [("a", "3"); ("b", "2")].
Proof. vm_compute. reflexivity. Qed.

End AnalysisdStateWitnesses.

(** ** make_analysisd_callback: what the normalisation keeps and drops *)

Section NormalisationMore.

Import PyStr.

Lemma all_chars_append (p : ascii -> bool) (a b : string) :
  all_chars p (a ++ b) = all_chars p a && all_chars p b.
Proof.
  induction a as [|c a IH]; [reflexivity|].
  cbn [append all_chars]. now rewrite IH, andb_assoc.
Qed.

Lemma words_no_space (s : string) :
  no_space (fst (words s)) = true /\
  Forall (fun w => no_space w = true) (snd (words s)).
Proof.
  induction s as [|c s [IHw IHws]]; [now split|].
  cbn [words]. destruct (words s) as [w ws]. cbn [fst snd] in *.
  destruct (isspace c) eqn:Hc; cbn [fst snd].
  - split; [reflexivity|].
    destruct w; cbn [cons_word]; [exact IHws | now constructor].
  - split; [|exact IHws].
    unfold no_space in *. cbn [all_chars]. now rewrite Hc, IHw.
Qed.

Lemma split_no_space (s : string) :
  Forall (fun w => no_space w = true) (split s).
Proof.
  unfold split. pose proof (words_no_space s) as [Hw Hws].
  destruct (words s) as [w ws]. cbn [fst snd] in *.
  destruct w; cbn [cons_word]; [exact Hws | now constructor].
Qed.

Lemma join_no_space (ws : list string) :
  Forall (fun w => no_space w = true) ws ->
  no_space (join "\s+" ws) = true.
Proof.
  induction 1 as [|w ws Hw Hws IH]; [reflexivity|].
  destruct ws as [|w' ws']; [exact Hw|].
  change (join "\s+" (w :: w' :: ws')) with (w ++ "\s+" ++ join "\s+" (w' :: ws')).
  unfold no_space in *. rewrite !all_chars_append, Hw, IH. reflexivity.
Qed.

Lemma words_of_no_space (s : string) :
  no_space s = true -> words s = (s, []).
Proof.
  induction s as [|c s IH]; [reflexivity|].
  unfold no_space. cbn [all_chars words]. intros H.
  apply andb_true_iff in H. destruct H as [Hc Hs].
  apply negb_true_iff in Hc. rewrite (IH Hs), Hc. reflexivity.
Qed.

Lemma join_split_no_space (s : string) :
  no_space s = true -> join "\s+" (split s) = s.
Proof.
  intros H. unfold split. rewrite (words_of_no_space s H).
  now destruct s.
Qed.

(** No white space of the caller's pattern reaches the regular expression,
    and normalising a second time changes nothing: a pattern that was
    normalised before gives the same compiled source and the same
    matcher. *)
Theorem analysisd_regex_normalised_once
        (RE : ReModule) (pattern : string) (prefix : option string) :
  let normalised := join "\s+" (split pattern) in
  no_space normalised = true /\
  join "\s+" (split normalised) = normalised /\
  analysisd_regex normalised prefix = analysisd_regex pattern prefix /\
  make_analysisd_callback normalised prefix = make_analysisd_callback pattern prefix.
Proof.
  intros normalised.
  assert (H : no_space normalised = true) by apply join_no_space, split_no_space.
  assert (E : join "\s+" (split normalised) = normalised)
    by now apply join_split_no_space.
  split; [exact H|]. split; [exact E|].
  assert (A : analysisd_regex normalised prefix = analysisd_regex pattern prefix).
  { unfold analysisd_regex. now rewrite E. }
  split; [exact A|].
  unfold make_analysisd_callback. now rewrite A.
Qed.

Lemma split_all_space (s : string) :
  all_chars isspace s = true -> split s = [].
Proof.
  induction s as [|c s IH]; [reflexivity|].
  cbn [all_chars]. intros H. apply andb_true_iff in H. destruct H as [Hc Hs].
  now rewrite (split_space c s Hc), IH.
Qed.

(** A pattern that is empty or all white space adds nothing: the compiled
    expression is the prefix alone, as for the default [callback=''] of
    check_analysisd_event. *)
Theorem analysisd_regex_blank_pattern
        (RE : ReModule) (pattern : string) (prefix : option string) :
  all_chars isspace pattern = true ->
  analysisd_regex pattern prefix = format prefix /\
  make_analysisd_callback pattern prefix = make_analysisd_callback "" prefix.
Proof.
  intros H.
  assert (A : analysisd_regex pattern prefix = format prefix).
  { unfold analysisd_regex. rewrite (split_all_space pattern H).
    cbn [join]. apply append_empty_r. }
  split; [exact A|].
  unfold make_analysisd_callback. rewrite A.
  replace (analysisd_regex "" prefix) with (format prefix); [reflexivity|].
  unfold analysisd_regex. cbn. now rewrite append_empty_r.
Qed.

Lemma words_append (a t1 t2 : string) :
  words t1 = words t2 -> words (a ++ t1) = words (a ++ t2).
Proof.
  intros H. induction a as [|c a IH]; [exact H|].
  cbn [append words]. now rewrite IH.
Qed.

(** The amount and the kind of white space between two words do not
    matter: one white-space character may be replaced by another, or be
    doubled, without any change to the compiled expression. *)
Theorem analysisd_regex_any_spacing
        (a b : string) (c d : ascii) (prefix : option string) :
  isspace c = true -> isspace d = true ->
  analysisd_regex (a ++ String c b) prefix = analysisd_regex (a ++ String d b) prefix /\
  analysisd_regex (a ++ String c (String d b)) prefix
  = analysisd_regex (a ++ String c b) prefix.
Proof.
  intros Hc Hd. unfold analysisd_regex, split. split.
  - rewrite (words_append a (String c b) (String d b)); [reflexivity|].
    cbn [words]. destruct (words b). now rewrite Hc, Hd.
  - rewrite (words_append a (String c (String d b)) (String c b)); [reflexivity|].
    cbn [words]. destruct (words b) as [w ws]. rewrite Hc, Hd.
    cbn [cons_word]. reflexivity.
Qed.

End NormalisationMore.

Section NormalisationWitnesses.

Existing Instance mini_re.

Lemma analysisd_regex_blank_pattern_witness :
  let pattern := "   
 " in
  all_chars PyStr.isspace pattern = true /\
  analysisd_regex pattern (Some ".*wazuh-analysisd.*") = PyStr.format (Some ".*wazuh-analysisd.*") /\
  make_analysisd_callback pattern (Some ".*wazuh-analysisd.*")
  = make_analysisd_callback "" (Some ".*wazuh-analysisd.*").
Proof.
  intros pattern.
  assert (H : all_chars PyStr.isspace pattern = true) by (vm_compute; reflexivity).
  split; [exact H|].
  exact (analysisd_regex_blank_pattern mini_re pattern (Some ".*wazuh-analysisd.*") H).
Defined.

Lemma analysisd_regex_any_spacing_witness :
  let a := "EPS" in
  let b := "limit" in
  let c := " "%char in
  let d := "009"%char in
  PyStr.isspace c = true /\ PyStr.isspace d = true /\
  analysisd_regex (a ++ String c b) None = analysisd_regex (a ++ String d b) None /\
  analysisd_regex (a ++ String c (String d b)) None
  = analysisd_regex (a ++ String c b) None.
Proof.
  intros a b c d.
  assert (Hc : PyStr.isspace c = true) by (vm_compute; reflexivity).
  assert (Hd : PyStr.isspace d = true) by (vm_compute; reflexivity).
  split; [exact Hc|]. split; [exact Hd|].
  exact (analysisd_regex_any_spacing a b c d None Hc Hd).
Defined.

End NormalisationWitnesses.

(** ** remote.py: sockets *)

Section SocketFacts.

Import PyText.

Lemma utf8_append (a b : string) : utf8 (a ++ b) = (utf8 a ++ utf8 b)%list.
Proof.
  induction a as [|c a IH]; [reflexivity|].
  cbn [append utf8]. now rewrite IH, app_assoc.
Qed.

Lemma utf8_newline : utf8 (String newline "") = [x0a].
Proof. reflexivity. Qed.

(** send_syslog_message always sends a text that ends with a newline: the
    last byte on the wire is 0x0a, and a message without a final newline
    makes the same calls as that message with one. *)
Theorem send_syslog_message_newline
        (message : string) (port : nat) (protocol manager_address : string)
        (peer : Peer) :
  refuses peer = false ->
  (exists kind data,
      send_syslog_message message port protocol manager_address peer
      = (Return tt,
         [Socket kind; Connect manager_address port; Send (data ++ [x0a])%list; Close]) /\
      (kind = SOCK_DGRAM <-> PyStr.upper protocol = UDP)) /\
  (endswith message (String newline "") = false ->
   send_syslog_message (message ++ String newline "") port protocol manager_address peer
   = send_syslog_message message port protocol manager_address peer).
Proof.
  intros Hacc. unfold send_syslog_message. rewrite Hacc. split.
  - assert (D : exists data,
               utf8 (if endswith message (String newline "") then message
                     else message ++ String newline "")
               = (data ++ [x0a])%list).
    { destruct (endswith message (String newline "")) eqn:E.
      - destruct (endswith_newline_inv message E) as [a ->].
        exists (utf8 a). now rewrite utf8_append, utf8_newline.
      - exists (utf8 message). now rewrite utf8_append, utf8_newline. }
    destruct D as [data D]. rewrite D.
    destruct (String.eqb_spec (PyStr.upper protocol) UDP) as [Eu|Eu].
    + exists SOCK_DGRAM, data. split; [reflexivity|]. split; congruence.
    + exists SOCK_STREAM, data. split; [reflexivity|]. split; congruence.
  - intros E. rewrite E, endswith_append.
    destruct (String.eqb (PyStr.upper protocol) UDP); reflexivity.
Qed.

(** With nothing listening on the port, a stream protocol makes both
    senders raise ConnectionRefusedError at connect, before anything is
    sent, and the socket that was made is not closed.  A datagram cannot be
    refused at connect: send_syslog_message sends, closes and returns, and
    send_ping_pong_messages sends the ping and fails at recv, again without
    closing. *)
Theorem refused_connection_sends_nothing
        (message protocol manager_address : string) (port : nat) (peer : Peer) :
  refuses peer = true ->
  (PyStr.upper protocol <> UDP ->
   send_syslog_message message port protocol manager_address peer
   = (Raise ConnectionRefusedError, [Socket SOCK_STREAM; Connect manager_address port]) /\
   send_ping_pong_messages protocol manager_address port peer
   = (Raise ConnectionRefusedError, [Socket SOCK_STREAM; Connect manager_address port])) /\
  (PyStr.upper protocol = UDP ->
   (exists data,
       send_syslog_message message port protocol manager_address peer
       = (Return tt,
          [Socket SOCK_DGRAM; Connect manager_address port; Send data; Close])) /\
   send_ping_pong_messages protocol manager_address port peer
   = (Raise ConnectionRefusedError,
      [Socket SOCK_DGRAM; Connect manager_address port;
       Send (PyStr.encode "#ping"); Recv 5])).
Proof.
  intros H. unfold send_syslog_message, send_ping_pong_messages. split.
  - intros Hp. apply String.eqb_neq in Hp. rewrite Hp, H. split; reflexivity.
  - intros Hp. rewrite Hp. unfold UDP at 1 3. cbn [String.eqb Ascii.eqb Bool.eqb].
    rewrite H. split; [eexists; reflexivity | reflexivity].
Qed.

(** When the socket hands back no more than the buffer size it was asked
    for, send_ping_pong_messages returns at most five bytes, over UDP and
    over TCP. *)
Theorem send_ping_pong_messages_at_most_five
        (protocol manager_address : string) (port : nat) (peer : Peer) :
  refuses peer = false ->
  (forall data bufsize, List.length (reply peer data bufsize) <= bufsize) ->
  exists response,
    fst (send_ping_pong_messages protocol manager_address port peer) = Return response /\
    List.length response <= 5.
Proof.
  intros Hacc Hbuf. unfold send_ping_pong_messages. rewrite Hacc.
  destruct (String.eqb (PyStr.upper protocol) UDP); cbn [fst]; eexists;
    (split; [reflexivity|]).
  - apply Hbuf.
  - rewrite length_last_bytes. lia.
Qed.

Lemma send_syslog_message_newline_witness :
  let peer := {| refuses := false; reply := fun _ _ => [] |} in
  refuses peer = false /\
  (exists kind data,
      send_syslog_message "sshd: session opened" 514 "udp" "127.0.0.1" peer
      = (Return tt,
         [Socket kind; Connect "127.0.0.1" 514; Send (data ++ [x0a])%list; Close]) /\
      (kind = SOCK_DGRAM <-> PyStr.upper "udp" = UDP)) /\
  (endswith "sshd: session opened" (String newline "") = false ->
   send_syslog_message ("sshd: session opened" ++ String newline "") 514 "udp"
     "127.0.0.1" peer
   = send_syslog_message "sshd: session opened" 514 "udp" "127.0.0.1" peer).
Proof.
  intros peer.
  assert (H : refuses peer = false) by reflexivity.
  split; [exact H|].
  exact (send_syslog_message_newline "sshd: session opened" 514 "udp" "127.0.0.1" peer H).
Defined.

Lemma refused_connection_sends_nothing_witness :
  let peer := {| refuses := true; reply := fun _ _ => [] |} in
  refuses peer = true /\
  ((PyStr.upper "TCP" <> UDP ->
    send_syslog_message "hello" 514 "TCP" "127.0.0.1" peer
    = (Raise ConnectionRefusedError, [Socket SOCK_STREAM; Connect "127.0.0.1" 514]) /\
    send_ping_pong_messages "TCP" "127.0.0.1" 514 peer
    = (Raise ConnectionRefusedError, [Socket SOCK_STREAM; Connect "127.0.0.1" 514])) /\
   (PyStr.upper "TCP" = UDP ->
    (exists data,
        send_syslog_message "hello" 514 "TCP" "127.0.0.1" peer
        = (Return tt,
           [Socket SOCK_DGRAM; Connect "127.0.0.1" 514; Send data; Close])) /\
    send_ping_pong_messages "TCP" "127.0.0.1" 514 peer
    = (Raise ConnectionRefusedError,
       [Socket SOCK_DGRAM; Connect "127.0.0.1" 514;
        Send (PyStr.encode "#ping"); Recv 5]))) /\
  ((PyStr.upper "udp" <> UDP ->
    send_syslog_message "hello" 514 "udp" "127.0.0.1" peer
    = (Raise ConnectionRefusedError, [Socket SOCK_STREAM; Connect "127.0.0.1" 514]) /\
    send_ping_pong_messages "udp" "127.0.0.1" 514 peer
    = (Raise ConnectionRefusedError, [Socket SOCK_STREAM; Connect "127.0.0.1" 514])) /\
   (PyStr.upper "udp" = UDP ->
    (exists data,
        send_syslog_message "hello" 514 "udp" "127.0.0.1" peer
        = (Return tt,
           [Socket SOCK_DGRAM; Connect "127.0.0.1" 514; Send data; Close])) /\
    send_ping_pong_messages "udp" "127.0.0.1" 514 peer
    = (Raise ConnectionRefusedError,
       [Socket SOCK_DGRAM; Connect "127.0.0.1" 514;
        Send (PyStr.encode "#ping"); Recv 5]))).
Proof.
  intros peer.
  assert (H : refuses peer = true) by reflexivity.
  split; [exact H|]. split.
  - exact (refused_connection_sends_nothing "hello" "TCP" "127.0.0.1" 514 peer H).
  - exact (refused_connection_sends_nothing "hello" "udp" "127.0.0.1" 514 peer H).
Defined.

Example refused_stream_run :
  PyStr.upper "TCP" <> UDP /\
  send_syslog_message "hello" 514 "TCP" "127.0.0.1"
    {| refuses := true; reply := fun _ _ => [] |}
  = (Raise ConnectionRefusedError, [Socket SOCK_STREAM; Connect "127.0.0.1" 514]).
Proof. split; [discriminate | reflexivity]. Qed.

Example refused_datagram_run :
  PyStr.upper "udp" = UDP /\
  send_syslog_message "hello" 514 "udp" "127.0.0.1"
    {| refuses := true; reply := fun _ _ => [] |}
  = (Return tt,
     [Socket SOCK_DGRAM; Connect "127.0.0.1" 514;
      Send [x68; x65; x6c; x6c; x6f; x0a]; Close]).
Proof. split; reflexivity. Qed.

Lemma send_ping_pong_messages_at_most_five_witness :
  let pong := [x05; x00; x00; x00; x23; x70; x6f; x6e; x67; x21; x21] in
  let peer := {| refuses := false; reply := fun _ bufsize => firstn bufsize pong |} in
  refuses peer = false /\
  (forall data bufsize, List.length (reply peer data bufsize) <= bufsize) /\
  exists response,
    fst (send_ping_pong_messages "tcp" "127.0.0.1" 1514 peer) = Return response /\
    List.length response <= 5.
Proof.
  intros pong peer.
  assert (H : refuses peer = false) by reflexivity.
  assert (B : forall data bufsize, List.length (reply peer data bufsize) <= bufsize)
    by (intros data bufsize; simpl; rewrite length_firstn; lia).
  split; [exact H|]. split; [exact B|].
  exact (send_ping_pong_messages_at_most_five "tcp" "127.0.0.1" 1514 peer H B).
Defined.

Example send_syslog_message_run :
  send_syslog_message "hi" 514 "tcp" "127.0.0.1"
    {| refuses := false; reply := fun _ _ => [] |}
  = (Return tt,
     [Socket SOCK_STREAM; Connect "127.0.0.1" 514; Send [x68; x69; x0a]; Close]).
Proof. vm_compute. reflexivity. Qed.

End SocketFacts.

(** ** remote.py: the checks on the log of wazuh-remoted *)

Section RemotedLogChecks.

Context {RE : ReModule}.

Variable REMOTED_DETECTOR_PREFIX : string.

Lemma make_callback_raises (pattern : string) (prefix : option string) (e : exn) :
  make_callback pattern prefix = Raise e -> e = ReError.
Proof.
  unfold make_callback.
  destruct (re_compile _); [discriminate | congruence].
Qed.

Lemma check_remoted_log_event_outcomes
      (mon : Monitor) (callback_pattern message : string)
      (update_position : bool) (timeout : nat)
      (existing : list string) (polls : list (list string)) :
  let result :=
    check_remoted_log_event REMOTED_DETECTOR_PREFIX mon callback_pattern message
      update_position timeout existing polls in
  (fst result = Return tt \/ fst result = Raise ReError
   \/ fst result = Raise (TimeoutError message)) /\
  (update_position = false -> snd result = mon) /\
  (forall e, fst result = Raise e -> snd result = mon).
Proof.
  cbv zeta. unfold check_remoted_log_event.
  destruct (make_callback callback_pattern (Some REMOTED_DETECTOR_PREFIX))
    as [cb|e] eqn:Ecb.
  - set (req := {| timeout := timeout; callback := cb;
                   update_position := update_position;
                   accum_results := default_accum_results;
                   error_message := message |}).
    pose proof (start_keeps_position Match req mon existing polls) as Hkeep.
    pose proof (start_timeout_keeps_monitor Match req mon existing polls) as Hfail.
    destruct (start req mon existing polls) as [r mon'] eqn:E.
    cbn [fst snd] in *. split; [|split].
    + destruct r as [r|e].
      * now left.
      * right. right. specialize (Hfail e eq_refl). injection Hfail as -> _.
        reflexivity.
    + intros ->. now apply Hkeep.
    + intros e He. destruct r as [r|e']; [discriminate|].
      specialize (Hfail e' eq_refl). now injection Hfail as _ ->.
  - apply make_callback_raises in Ecb. subst e. cbn [fst snd].
    split; [now right; left|]. split; intros; reflexivity.
Qed.

(** wait_to_remoted_key_update, and check_tcp_connection_established_log
    without update_position, never move the read position of the monitor
    they are given; each returns, or raises re.error for a pattern that
    does not compile, or raises the timeout with its own message, which for
    the TCP check quotes the pattern with the address in it. *)
Theorem remoted_log_checks_keep_position
        (mon : Monitor) (ip_address : string)
        (existing : list string) (polls : list (list string)) :
  let key_update :=
    wait_to_remoted_key_update REMOTED_DETECTOR_PREFIX mon existing polls in
  let tcp :=
    check_tcp_connection_established_log REMOTED_DETECTOR_PREFIX mon false
      ip_address existing polls in
  snd key_update = mon /\ snd tcp = mon /\
  (fst key_update = Return tt \/ fst key_update = Raise ReError \/
   fst key_update = Raise (TimeoutError "Could not find the remoted key loading log")) /\
  (fst tcp = Return tt \/ fst tcp = Raise ReError \/
   fst tcp = Raise (TimeoutError
                      ("Could not find the log with the following pattern "
                       ++ ".*New TCP connection at " ++ ip_address ++ ".*"))).
Proof.
  intros key_update tcp. subst key_update tcp.
  unfold wait_to_remoted_key_update, check_tcp_connection_established_log.
  split; [|split; [|split]].
  - now apply check_remoted_log_event_outcomes.
  - now apply check_remoted_log_event_outcomes.
  - apply check_remoted_log_event_outcomes.
  - apply check_remoted_log_event_outcomes.
Qed.

End RemotedLogChecks.

Section RemotedLogRuns.

Existing Instance mini_re.

(** In the pattern of wait_to_remoted_key_update the two parentheses are an
    empty group of the regular expression: the line need not have them. *)
Example wait_to_remoted_key_update_run :
  fst (wait_to_remoted_key_update ".*wazuh-remoted.*"
         (FileMonitor "/var/ossec/logs/ossec.log")
         ["2021/01/01 wazuh-remoted: DEBUG: rem_keyupdate_main: Checking for keys file changes."]
         [[]])
  = Return tt.
Proof. vm_compute. reflexivity. Qed.

Example check_tcp_connection_established_log_timeout :
  check_tcp_connection_established_log ".*wazuh-remoted.*"
    {| source := FilePath "/var/ossec/logs/ossec.log"; last_read_offset := 1 |}
    false "127.0.0.1"
    ["2021/01/01 wazuh-remoted: DEBUG: New UDP connection"] [[]; []]
  = (Raise (TimeoutError
              "Could not find the log with the following pattern .*New TCP connection at 127.0.0.1.*"),
     {| source := FilePath "/var/ossec/logs/ossec.log"; last_read_offset := 1 |}).
Proof. vm_compute. reflexivity. Qed.

End RemotedLogRuns.

(** ** The fixtures of test_execd *)

Section ExecdConftestFacts.

Import PyText ExecdConftest.





Lemma rfind_absent (c : ascii) (s : string) :
  has_char c s = false -> rfind c s = None.
Proof.
  induction s as [|d s IH]; [reflexivity|].
  cbn [has_char rfind]. intros H. apply orb_false_iff in H. destruct H as [Hd Hs].
  now rewrite (IH Hs), Hd.
Qed.

Lemma rfind_last (c : ascii) (a b : string) :
  has_char c b = false -> rfind c (a ++ String c b) = Some (String.length a).
Proof.
  intros H. induction a as [|d a IH].
  - cbn [append rfind String.length]. now rewrite (rfind_absent c b H), Ascii.eqb_refl.
  - cbn [append rfind String.length]. now rewrite IH.
Qed.

Lemma take_append (a b : string) : take (String.length a) (a ++ b) = a.
Proof.
  induction a as [|c a IH]; [now destruct b|].
  cbn [append String.length take]. now rewrite IH.
Qed.

(** Off Linux, get_current_version gives the text of the VERSION file
    before its last line end, a newline or a carriage return with a
    newline, so what follows it is dropped; a file without any line end
    loses its last character. *)
Theorem get_current_version_cuts (platform_system a b : string) (config : res string) :
  platform_system <> "Linux" ->
  has_char carriage_return a = false ->
  has_char carriage_return b = false ->
  has_char newline b = false ->
  get_current_version platform_system config (Some (a ++ String newline b)) = Ok a /\
  get_current_version platform_system config
    (Some (a ++ String carriage_return (String newline ""))) = Ok a /\
  get_current_version platform_system config (Some b) = Ok (drop_last b).
Proof.
  intros Hp Ha Hb Hnl. apply String.eqb_neq in Hp.
  unfold get_current_version, version_of_file, read. rewrite Hp.
  rewrite (text_mode_clean (a ++ String newline b)).
  2: { rewrite has_char_append. cbn [has_char]. now rewrite Ha, Hb. }
  rewrite (text_mode_crlf a Ha), (text_mode_clean b Hb).
  rewrite (rfind_last newline a b Hnl), take_append.
  rewrite (rfind_last newline a "" eq_refl), take_append.
  rewrite (rfind_absent newline b Hnl).
  repeat split.
Qed.

Lemma get_current_version_cuts_witness :
  let platform_system := "Windows" in
  let a := "v4.2.0" in
  let b := "" in
  platform_system <> "Linux" /\
  has_char carriage_return a = false /\
  has_char carriage_return b = false /\
  has_char newline b = false /\
  get_current_version platform_system (Err (KeyError "VERSION"))
    (Some (a ++ String newline b)) = Ok a /\
  get_current_version platform_system (Err (KeyError "VERSION"))
    (Some (a ++ String carriage_return (String newline ""))) = Ok a /\
  get_current_version platform_system (Err (KeyError "VERSION")) (Some b)
  = Ok (drop_last b).
Proof.
  intros platform_system a b.
  assert (H1 : platform_system <> "Linux") by discriminate.
  assert (H2 : has_char carriage_return a = false) by reflexivity.
  assert (H3 : has_char carriage_return b = false) by reflexivity.
  assert (H4 : has_char newline b = false) by reflexivity.
  split; [exact H1|]. split; [exact H2|]. split; [exact H3|]. split; [exact H4|].
  exact (get_current_version_cuts platform_system a b (Err (KeyError "VERSION"))
           H1 H2 H3 H4).
Defined.

Example get_current_version_no_newline :
  get_current_version "Darwin" (Err (KeyError "VERSION")) (Some "v4.2.0") = Ok "v4.2.".
Proof. reflexivity. Qed.

Example get_current_version_crlf :
  get_current_version "Windows" (Err (KeyError "VERSION"))
    (Some ("v4.2.0" ++ String carriage_return (String newline "")))
  = Ok "v4.2.0".
Proof. reflexivity. Qed.

Example set_debug_mode_run :
  set_debug_mode "Linux" (Some "# local options") =
  Ok "# local options
execd.debug=2
".
Proof. reflexivity. Qed.

(** The debug line is there with a carriage return before its newline:
    the file is left as it is. *)
Example set_debug_mode_crlf :
  set_debug_mode "Linux"
    (Some ("execd.debug=2" ++ String carriage_return (String newline "")))
  = Ok ("execd.debug=2" ++ String carriage_return (String newline "")).
Proof. reflexivity. Qed.

Example set_debug_mode_windows :
  set_debug_mode "Windows" (Some "# local options")
  = Ok ("# local options" ++ String carriage_return (String newline "")
        ++ "windows.debug=2" ++ String carriage_return (String newline "")).
Proof. reflexivity. Qed.

End ExecdConftestFacts.

(** ** add_log_data *)

Section AddLogData.

Import PyText OnlyFutureEvents.

Local Open Scope Z_scope.

Lemma string_length_append (a b : string) :
  String.length (a ++ b) = (String.length a + String.length b)%nat.
Proof.
  induction a as [|c a IH]; [reflexivity|].
  cbn [append String.length]. now rewrite IH.
Qed.

Lemma log_line_length (message : string) (x : Z) :
  Z.of_nat (String.length message) + 1
  <= Z.of_nat (String.length (log_line message x)).
Proof.
  unfold log_line. rewrite !string_length_append. cbn [String.length]. lia.
Qed.

Lemma concat_lines_length (message : string) (xs : list Z) :
  (Z.of_nat (String.length message) + 1) * Z.of_nat (List.length xs)
  <= Z.of_nat (String.length (String.concat "" (map (log_line message) xs))).
Proof.
  induction xs as [|x xs IH]; [cbn; lia|].
  cbn [map]. rewrite concat_cons, string_length_append.
  pose proof (log_line_length message x). cbn [List.length]. lia.
Qed.

Lemma range_length (a b : Z) : List.length (range a b) = Z.to_nat (b - a).
Proof. unfold range. now rewrite length_map, length_seq. Qed.

Lemma ceil_div_bounds (a b : Z) :
  0 < b -> a <= ceil_div a b * b < a + b.
Proof.
  intros Hb. unfold ceil_div.
  pose proof (Z.div_mod (- a) b ltac:(lia)) as E.
  pose proof (Z.mod_pos_bound (- a) b Hb) as B. nia.
Qed.

(** What the docstring promises: with a message that is not empty, and a
    size below 2^53 for which the float division is exact enough, the text
    added to the log is longer than the size asked for, size_kib times
    1024 characters. *)
Theorem add_log_data_exceeds_size
        (log message : string) (size_kib line_start : Z) :
  message <> "" ->
  - 2 ^ 53 < size_kib * 1024 < 2 ^ 53 ->
  Z.of_nat (String.length (fst (add_log_data log message size_kib line_start)))
  > Z.of_nat (String.length log) + size_kib * 1024.
Proof.
  intros Hm _. unfold add_log_data.
  assert (Hlen : 0 < Z.of_nat (String.length message))
    by (destruct message; [congruence | cbn [String.length]; lia]).
  destruct (Nat.eqb_spec (String.length message) 0) as [E|_]; [lia|].
  cbn [negb fst]. rewrite string_length_append.
  set (lines := ceil_div (size_kib * 1024) (Z.of_nat (String.length message))).
  pose proof (concat_lines_length message
                (range line_start (line_start + lines + 1))) as Hc.
  rewrite range_length in Hc.
  replace (line_start + lines + 1 - line_start) with (lines + 1) in Hc by lia.
  pose proof (ceil_div_bounds (size_kib * 1024) _ Hlen) as [Hlow _].
  fold lines in Hlow.
  destruct (Z.le_gt_cases (lines + 1) 0) as [Hneg|Hpos].
  - rewrite Nat2Z.inj_add. nia.
  - rewrite Z2Nat.id in Hc by lia. rewrite Nat2Z.inj_add. nia.
Qed.

(** The lines written carry the numbers from line_start on, one more line
    than the size asks for, and the number returned is the number of the
    last line written less one. *)
Theorem add_log_data_numbers
        (log message : string) (size_kib line_start : Z) :
  message <> "" ->
  0 <= size_kib * 1024 < 2 ^ 53 ->
  let lines := ceil_div (size_kib * 1024) (Z.of_nat (String.length message)) in
  let numbers := range line_start (line_start + lines + 1) in
  0 <= lines /\
  fst (add_log_data log message size_kib line_start)
  = log ++ String.concat "" (map (log_line message) numbers) /\
  Z.of_nat (List.length numbers) = lines + 1 /\
  hd 0 numbers = line_start /\
  last numbers 0 = line_start + lines /\
  snd (add_log_data log message size_kib line_start) = last numbers 0 - 1.
Proof.
  intros Hm [Hsize _] lines numbers.
  assert (Hlen : 0 < Z.of_nat (String.length message))
    by (destruct message; [congruence | cbn [String.length]; lia]).
  pose proof (ceil_div_bounds (size_kib * 1024) _ Hlen) as [Hlow _].
  fold lines in Hlow.
  assert (Hlines : 0 <= lines) by nia.
  assert (Hn : numbers
               = (map (fun i => line_start + Z.of_nat i) (seq 0 (Z.to_nat lines))
                  ++ [line_start + lines])%list).
  { subst numbers. unfold range.
    replace (line_start + lines + 1 - line_start) with (lines + 1) by lia.
    rewrite Z2Nat.inj_add by lia. change (Z.to_nat 1) with 1%nat.
    rewrite Nat.add_1_r, seq_S, map_app. cbn [map Nat.add].
    now rewrite Z2Nat.id by lia. }
  assert (Hlast : last numbers 0 = line_start + lines)
    by (rewrite Hn; apply last_last).
  split; [exact Hlines|]. unfold add_log_data.
  destruct (Nat.eqb_spec (String.length message) 0) as [E|_]; [lia|].
  cbn [negb fst snd]. fold lines. fold numbers.
  split; [reflexivity|]. split.
  - subst numbers. rewrite range_length. lia.
  - split; [|split; [exact Hlast | rewrite Hlast; lia]].
    subst numbers. unfold range.
    replace (line_start + lines + 1 - line_start) with (lines + 1) by lia.
    rewrite Z2Nat.inj_add by lia. change (Z.to_nat 1) with 1%nat.
    rewrite Nat.add_1_r. cbn [seq map hd]. lia.
Qed.

Lemma add_log_data_exceeds_size_witness :
  let message := "Jan  1 00:00:00 localhost test[0]: line=" in
  message <> "" /\
  - 2 ^ 53 < 1 * 1024 < 2 ^ 53 /\
  Z.of_nat (String.length (fst (add_log_data "" message 1 1)))
  > Z.of_nat (String.length "") + 1 * 1024.
Proof.
  intros message.
  assert (H : message <> "") by discriminate.
  assert (F : - 2 ^ 53 < 1 * 1024 < 2 ^ 53) by (vm_compute; split; reflexivity).
  split; [exact H|]. split; [exact F|].
  exact (add_log_data_exceeds_size "" message 1 1 H F).
Defined.

Lemma add_log_data_numbers_witness :
  let message := "line=" in
  message <> "" /\ 0 <= 1 * 1024 < 2 ^ 53 /\
  let lines := ceil_div (1 * 1024) (Z.of_nat (String.length message)) in
  let numbers := range 1 (1 + lines + 1) in
  0 <= lines /\
  fst (add_log_data "" message 1 1)
  = "" ++ String.concat "" (map (log_line message) numbers) /\
  Z.of_nat (List.length numbers) = lines + 1 /\
  hd 0 numbers = 1 /\
  last numbers 0 = 1 + lines /\
  snd (add_log_data "" message 1 1) = last numbers 0 - 1.
Proof.
  intros message.
  assert (H : message <> "") by discriminate.
  assert (H0 : 0 <= 1 * 1024 < 2 ^ 53) by (vm_compute; split; [discriminate | reflexivity]).
  split; [exact H|]. split; [exact H0|].
  exact (add_log_data_numbers "" message 1 1 H H0).
Defined.

Example add_log_data_small :
  add_log_data "old
" "line=" 0 7 = ("old
line=7
", 6).
Proof. vm_compute. reflexivity. Qed.

Example add_log_data_empty_message :
  add_log_data "old" "" 1024 1 = ("old", 0).
Proof. reflexivity. Qed.

End AddLogData.

(** ** DockerWrapper *)

Section DockerFacts.

Import DockerWrapper.

Variables (Daemon Image Container : Type).
Variable images_build : string -> DM Daemon Image.
Variable images_remove : Image -> bool -> DM Daemon unit.
Variable containers_get : string -> DM Daemon Container.
Variable container_restart : Container -> DM Daemon unit.
Variable container_stop : Container -> DM Daemon unit.
Variable container_remove : Container -> DM Daemon unit.
Variable container_status : Container -> string.

Lemma except_not_found_never (A : Type) (body handler : DM Daemon A) (d : Daemon) :
  fst (handler (snd (body d))) <> DErr NotFound ->
  fst (except_not_found body handler d) <> DErr NotFound.
Proof.
  unfold except_not_found. destruct (body d) as [[a|[| |]] d']; cbn [fst snd];
    [discriminate | trivial | discriminate | discriminate].
Qed.

Lemma dbind_never (A B : Type) (m : DM Daemon A) (k : A -> DM Daemon B) (d : Daemon) :
  fst (m d) <> DErr NotFound ->
  (forall a d', fst (k a d') <> DErr NotFound) ->
  fst (dbind m k d) <> DErr NotFound.
Proof.
  intros Hm Hk. unfold dbind. destruct (m d) as [[a|e] d']; cbn [fst] in *.
  - apply Hk.
  - intros H. apply Hm. injection H as ->. reflexivity.
Qed.

(** A container that is not run in the background always has its output
    returned: after __init__, detach off means stdout and stderr on; with
    detach on the two flags are as the caller gave them. *)
Theorem init_output_flags
        (dockerfile_path name : string) (remove : bool)
        (ports : option (list (string * string))) (detach stdout stderr : bool)
        (ip network_name : option string)
        (d d' : Daemon) (self : DockerWrapper Image) :
  init images_build dockerfile_path name remove ports detach stdout stderr
       ip network_name d = (DOk self, d') ->
  (DockerWrapper.detach self = false ->
   DockerWrapper.stdout self = true /\ DockerWrapper.stderr self = true) /\
  (DockerWrapper.detach self = true ->
   DockerWrapper.stdout self = stdout /\ DockerWrapper.stderr self = stderr) /\
  DockerWrapper.detach self = detach /\
  fst (images_build dockerfile_path d) = DOk (image self).
Proof.
  unfold init, dbind, dret.
  destruct (images_build dockerfile_path d) as [[img|e] d1]; [|discriminate].
  intros H. injection H as <- _. cbn.
  destruct detach; cbn; repeat split; try reflexivity; discriminate.
Qed.

(** restart, halt, status and destroy without remove_image never raise
    NotFound, whatever the docker client answers; status gives not_created
    for a container that is not there; an APIError from the look-up of the
    container is passed on by halt. *)
Theorem not_found_is_swallowed (self : DockerWrapper Image) (d : Daemon) :
  fst (restart containers_get container_restart self d) <> DErr NotFound /\
  fst (halt containers_get container_stop self d) <> DErr NotFound /\
  fst (status containers_get container_status self d) <> DErr NotFound /\
  fst (destroy images_remove containers_get container_stop container_remove
         self false d) <> DErr NotFound /\
  (fst (containers_get (name self) d) = DErr NotFound ->
   fst (status containers_get container_status self d) = DOk "not_created") /\
  (fst (containers_get (name self) d) = DErr APIError ->
   fst (halt containers_get container_stop self d) = DErr APIError).
Proof.
  assert (Hhalt : forall d0, fst (halt containers_get container_stop self d0)
                             <> DErr NotFound).
  { intros d0. apply except_not_found_never. discriminate. }
  split; [apply except_not_found_never; discriminate|].
  split; [apply Hhalt|].
  split; [apply except_not_found_never; discriminate|].
  split.
  - unfold destroy.
    apply dbind_never; [apply except_not_found_never; discriminate|].
    intros _ d1.
    apply dbind_never; [apply except_not_found_never; discriminate|].
    intros _ d2. cbn. discriminate.
  - split.
    + unfold status, except_not_found, dbind, get_container.
      destruct (containers_get (name self) d) as [[c|e] d1]; cbn [fst];
        intros H; [discriminate|]. injection H as ->. reflexivity.
    + unfold halt, except_not_found, dbind, get_container.
      destruct (containers_get (name self) d) as [[c|e] d1]; cbn [fst];
        intros H; [discriminate|]. injection H as ->. reflexivity.
Qed.

End DockerFacts.

Section DockerRuns.

Import DockerWrapper.

Lemma init_output_flags_witness :
  let self :=
    {| dockerfile_path := "/tmp/dockerfiles"; name := "manager"; remove := false;
       detach := false; ports := None; stdout := true; stderr := true;
       ip := None; network_name := None; image := "/tmp/dockerfiles" |} in
  init toy_build "/tmp/dockerfiles" "manager" false None false false false None None []
  = (DOk self, []) /\
  (DockerWrapper.detach self = false ->
   DockerWrapper.stdout self = true /\ DockerWrapper.stderr self = true) /\
  (DockerWrapper.detach self = true ->
   DockerWrapper.stdout self = false /\ DockerWrapper.stderr self = false) /\
  DockerWrapper.detach self = false /\
  fst (toy_build "/tmp/dockerfiles" []) = DOk (image self).
Proof.
  intros self.
  assert (H : init toy_build "/tmp/dockerfiles" "manager" false None false false false
                None None [] = (DOk self, [])) by reflexivity.
  split; [exact H|].
  exact (init_output_flags (list string) string toy_build "/tmp/dockerfiles" "manager"
           false None false false false None None [] [] self H).
Defined.

Example status_not_created :
  status toy_get (fun c => "running")
    {| dockerfile_path := "/tmp/dockerfiles"; name := "manager"; remove := false;
       detach := true; ports := None; stdout := false; stderr := false;
       ip := None; network_name := None; image := "img" |}
    ["agent"]
  = (DOk "not_created", ["agent"]).
Proof. reflexivity. Qed.

End DockerRuns.

(** ** remote.py: the kind of socket, and check_syslog_event *)

Section SyslogEvent.

Context {RE : ReModule}.

(** Both senders open a datagram socket exactly for the eight spellings of
    udp, whatever the case of each letter, and a stream socket for every
    other protocol text. *)
Theorem socket_kind_by_protocol
        (message protocol manager_address : string) (port : nat) (peer : Peer) :
  let spelled_udp :=
    exists a b c,
      protocol = String a (String b (String c EmptyString)) /\
      (a = "U" \/ a = "u")%char /\ (b = "D" \/ b = "d")%char /\
      (c = "P" \/ c = "p")%char in
  (hd Close (snd (send_syslog_message message port protocol manager_address peer))
   = Socket SOCK_DGRAM <-> spelled_udp) /\
  (hd Close (snd (send_ping_pong_messages protocol manager_address port peer))
   = Socket SOCK_DGRAM <-> spelled_udp) /\
  (~ spelled_udp ->
   hd Close (snd (send_syslog_message message port protocol manager_address peer))
   = Socket SOCK_STREAM /\
   hd Close (snd (send_ping_pong_messages protocol manager_address port peer))
   = Socket SOCK_STREAM).
Proof.
  intros spelled_udp. subst spelled_udp. rewrite <- (upper_is_UDP protocol).
  unfold send_syslog_message, send_ping_pong_messages.
  destruct (String.eqb_spec (PyStr.upper protocol) UDP) as [E|E];
    destruct (refuses peer); cbn [snd hd];
    (split; [split; [congruence | intros; congruence]|]);
    (split; [split; [congruence | intros; congruence]|]);
    intros H; try contradiction; split; reflexivity.
Qed.



End SyslogEvent.

Section SyslogEventRuns.

Existing Instance mini_re.


(** Nothing listens: over TCP the call stops at connect; over UDP the
    datagram goes out and the monitor finds the line. *)
Example check_syslog_event_refused_tcp :
  check_syslog_event (FileMonitor "/var/ossec/logs/archives/archives.log")
    "hello" 514 "tcp" 10 {| refuses := true; reply := fun _ _ => [] |}
    ["2021 Jan 01 00:00:00 manager->127.0.0.1 hello"] [[]]
  = ((Raise ConnectionRefusedError, FileMonitor "/var/ossec/logs/archives/archives.log"),
     [Socket SOCK_STREAM; Connect "127.0.0.1" 514]).
Proof. vm_compute. reflexivity. Qed.

Example check_syslog_event_refused_udp :
  check_syslog_event (FileMonitor "/var/ossec/logs/archives/archives.log")
    "hello" 514 "udp" 10 {| refuses := true; reply := fun _ _ => [] |}
    ["2021 Jan 01 00:00:00 manager->127.0.0.1 hello"] [[]]
  = ((Return tt,
      {| source := FilePath "/var/ossec/logs/archives/archives.log";
         last_read_offset := 1 |}),
     [Socket SOCK_DGRAM; Connect "127.0.0.1" 514;
      Send [x68; x65; x6c; x6c; x6f; x0a]; Close]).
Proof. vm_compute. reflexivity. Qed.

End SyslogEventRuns.
